(** * Roof Maxx market analytics: a shallow embedding and its properties

    The development follows [src/market_analysis.py] (the market research
    collector, the predictive model suite, the geospatial analyzer and the
    customer lifetime value helper) and [app/streamlit_dashboard.py] (the
    sidebar and the Executive Dashboard tab).

    Conventions of the embedding:
    - Python numbers ([int] and [float]) are exact rationals [Q]; the rounding
      of binary64 arithmetic is not modelled, so every equation between
      numbers is stated with [==] (equality of rationals) or is syntactic.
    - A Python exception is a value of [exception]; a call that may raise
      returns a [result].
    - A pandas [DataFrame] is an ordered list of named columns, a column is a
      list of cells.  Elementwise arithmetic follows numpy: dividing by zero
      does not raise but yields an infinity or [NaN]. *)

From Stdlib Require Import ZArith QArith Qabs Qminmax Lqa String List Bool Lia.
From Stdlib Require Floats.PrimFloat.
From stdpp Require Import base option list strings gmap fin_maps.
Import ListNotations.

Local Open Scope string_scope.
Local Open Scope Q_scope.

(** ** Python results *)

Inductive exception : Type :=
| UnboundLocalError (name : string)
| ZeroDivisionError
| TypeError
| ValueError
| KeyError (key : string).

Inductive result (A : Type) : Type :=
| Ok (a : A)
| Raise (e : exception).

Arguments Ok {A} a.
Arguments Raise {A} e.

Definition bind {A B : Type} (m : result A) (k : A -> result B) : result B :=
  match m with
  | Ok a => k a
  | Raise e => Raise e
  end.

Notation "'let*' x ':=' m 'in' k" := (bind m (fun x => k))
  (at level 10, x name, m at level 100, k at level 200).

(** [x / y] on Python numbers: a zero divisor raises [ZeroDivisionError]. *)
Definition truediv (x y : Q) : result Q :=
  if Qeq_bool y 0 then Raise ZeroDivisionError else Ok (x / y).

(** ** numpy numbers and pandas frames *)

(** A float64 cell: a finite value (kept exact), an infinity or NaN.
    Signed zeros are not distinguished. *)
Inductive number : Type :=
| Fin (q : Q)
| PosInf
| NegInf
| NaN.

Definition nmul (x y : number) : number :=
  match x, y with
  | NaN, _ | _, NaN => NaN
  | Fin a, Fin b => Fin (a * b)
  | Fin a, PosInf | PosInf, Fin a =>
      match a ?= 0 with Eq => NaN | Gt => PosInf | Lt => NegInf end
  | Fin a, NegInf | NegInf, Fin a =>
      match a ?= 0 with Eq => NaN | Gt => NegInf | Lt => PosInf end
  | PosInf, PosInf | NegInf, NegInf => PosInf
  | PosInf, NegInf | NegInf, PosInf => NegInf
  end.

Definition ndiv (x y : number) : number :=
  match x, y with
  | NaN, _ | _, NaN => NaN
  | Fin a, Fin b =>
      match b ?= 0 with
      | Eq => match a ?= 0 with Eq => NaN | Gt => PosInf | Lt => NegInf end
      | _ => Fin (a / b)
      end
  | Fin _, PosInf | Fin _, NegInf => Fin 0
  | PosInf, Fin b => match b ?= 0 with Lt => NegInf | _ => PosInf end
  | NegInf, Fin b => match b ?= 0 with Lt => PosInf | _ => NegInf end
  | _, _ => NaN
  end.

Inductive cell : Type :=
| Num (x : number)
| Str (s : string)
| Flag (b : bool).

Definition Series : Type := list cell.
Definition Row : Type := list (string * cell).
Definition DataFrame : Type := list (string * Series).

Definition nums (qs : list Q) : Series := map (fun q => Num (Fin q)) qs.
Definition strs (ss : list string) : Series := map Str ss.

(** The operand of an arithmetic operator: booleans count as 0 and 1, a text
    cell raises.  (Repetition of a text by an integer is not modelled: the
    programme never multiplies a text column.) *)
Definition as_number (c : cell) : result number :=
  match c with
  | Num x => Ok x
  | Flag b => Ok (Fin (if b then 1 else 0))
  | Str _ => Raise TypeError
  end.

Definition cell_op (op : number -> number -> number) (a b : cell) : result cell :=
  let* x := as_number a in
  let* y := as_number b in
  Ok (Num (op x y)).

(** Elementwise operation on two columns of one frame (same index). *)
Fixpoint series_op (op : number -> number -> number) (xs ys : Series)
  : result Series :=
  match xs, ys with
  | x :: xs', y :: ys' =>
      let* z := cell_op op x y in
      let* zs := series_op op xs' ys' in
      Ok (z :: zs)
  | _, _ => Ok []
  end.

(** Elementwise operation of a column with a Python scalar. *)
Fixpoint series_op_scalar (op : number -> number -> number) (xs : Series) (k : Q)
  : result Series :=
  match xs with
  | x :: xs' =>
      let* z := cell_op op x (Num (Fin k)) in
      let* zs := series_op_scalar op xs' k in
      Ok (z :: zs)
  | [] => Ok []
  end.

Fixpoint lookup_col {A : Type} (name : string) (cols : list (string * A)) : option A :=
  match cols with
  | [] => None
  | (c, v) :: rest => if String.eqb c name then Some v else lookup_col name rest
  end.

(** [name in df.columns], and [name in row] for a row of [iterrows]. *)
Definition has_col {A : Type} (name : string) (cols : list (string * A)) : bool :=
  match lookup_col name cols with Some _ => true | None => false end.

(** [df[name]]. *)
Definition getitem (df : DataFrame) (name : string) : result Series :=
  match lookup_col name df with
  | Some s => Ok s
  | None => Raise (KeyError name)
  end.

(** [df[name] = s]: an existing column is replaced in place, a new one is
    appended. *)
Fixpoint setitem (df : DataFrame) (name : string) (s : Series) : DataFrame :=
  match df with
  | [] => [(name, s)]
  | (c, v) :: rest =>
      if String.eqb c name then (c, s) :: rest else (c, v) :: setitem rest name s
  end.

(** [row.get(name, default)]. *)
Definition row_get (row : Row) (name : string) (default : cell) : cell :=
  match lookup_col name row with Some v => v | None => default end.

Definition nrows (df : DataFrame) : nat :=
  match df with
  | [] => O
  | (_, s) :: _ => length s
  end.

Definition row_at (df : DataFrame) (i : nat) : Row :=
  omap (fun '(c, s) => match nth_error s i with
                       | Some v => Some (c, v)
                       | None => None
                       end) df.

(** [df.iterrows()], without the index labels. *)
Definition iterrows (df : DataFrame) : list Row :=
  map (row_at df) (seq 0 (nrows df)).

(** [s.isin(values)] on a text column. *)
Definition isin (s : Series) (values : list string) : Series :=
  map (fun c => match c with
                | Str x => Flag (existsb (String.eqb x) values)
                | _ => Flag false
                end) s.

(** The cell of column [name] at row [i]. *)
Definition cell_at (df : DataFrame) (name : string) (i : nat) : option cell :=
  match lookup_col name df with
  | Some s => nth_error s i
  | None => None
  end.

(** A column every cell of which is a number or a boolean. *)
Definition numeric_series (s : Series) : bool :=
  forallb (fun c => match c with Str _ => false | _ => true end) s.

(** Column [name] of [df], if present, is numeric. *)
Definition numeric_column (df : DataFrame) (name : string) : bool :=
  match lookup_col name df with
  | Some s => numeric_series s
  | None => true
  end.

(** [ratio] is, row by row, the quotient of [num] by [den]. *)
Definition quotient_of (num den ratio : Series) : Prop :=
  length ratio = Nat.min (length num) (length den) /\
  forall i a b,
    nth_error num i = Some a -> nth_error den i = Some b ->
    exists x y,
      as_number a = Ok x /\ as_number b = Ok y /\
      nth_error ratio i = Some (Num (ndiv x y)) /\
      (forall p q, x = Fin p -> y = Fin q -> ~ q == 0 ->
                   nth_error ratio i = Some (Num (Fin (p / q)))).

(** ** Section 1: MarketResearchCollector *)

Definition washington_demographics : DataFrame :=
  [ ("county", strs ["King"; "Pierce"; "Snohomish"; "Spokane"; "Clark";
                     "Thurston"; "Kitsap"; "Yakima"; "Whatcom"; "Benton"]);
    ("population", nums [2269675; 921130; 827957; 522798; 503311;
                         291681; 271473; 256728; 229247; 206873]);
    ("median_income", nums [106326; 78936; 95184; 62371; 82614;
                            79683; 81934; 61709; 72977; 84867]);
    ("median_home_value", nums [686400; 451200; 589700; 298100; 445900;
                                398600; 459800; 264100; 475300; 338700]);
    ("homeownership_rate", nums [0.61; 0.65; 0.68; 0.62; 0.66;
                                 0.64; 0.66; 0.58; 0.63; 0.68]);
    ("housing_units", nums [953923; 363418; 327152; 218234; 199876;
                            123456; 112345; 95432; 98765; 87654]) ].

Definition canada_demographics : DataFrame :=
  [ ("province", strs ["Ontario"; "British Columbia"; "Alberta"; "Quebec";
                       "Manitoba"; "Saskatchewan"]);
    ("population", nums [14826276; 5214805; 4543111; 8604495;
                         1383765; 1194803]);
    ("median_income_cad", nums [87353; 82851; 97940; 79105; 77750; 80679]);
    ("median_home_value_cad", nums [769800; 876600; 476300; 453200;
                                    347800; 312500]);
    ("homeownership_rate", nums [0.69; 0.68; 0.72; 0.61; 0.70; 0.71]);
    ("housing_units", nums [5929000; 2100000; 1760000; 3700000;
                            580000; 485000]) ].

(** The three derived columns, with the constants of one branch. *)
Definition addressable_market (df : DataFrame) (asphalt qualify replacement : Q)
  : result DataFrame :=
  let* units := getitem df "housing_units" in
  let* rate := getitem df "homeownership_rate" in
  let* owned := series_op nmul units rate in
  let* roofs := series_op_scalar nmul owned asphalt in
  let df := setitem df "est_asphalt_roofs" roofs in
  let* roofs := getitem df "est_asphalt_roofs" in
  let* qualified := series_op_scalar nmul roofs qualify in
  let df := setitem df "est_qualified_roofs" qualified in
  let* qualified := getitem df "est_qualified_roofs" in
  let* potential := series_op_scalar nmul qualified replacement in
  Ok (setitem df "market_potential_annual" potential).

(** The local [df] is bound in the two branches only; [return df] with [df]
    unbound raises [UnboundLocalError]. *)
Definition collect_demographic_data (region : string) : result DataFrame :=
  let* df :=
    if String.eqb region "washington" then
      let* df := addressable_market washington_demographics 0.70 0.90 0.07 in
      Ok (Some df)
    else if String.eqb region "canada" then
      let* df := addressable_market canada_demographics 0.72 0.85 0.065 in
      Ok (Some df)
    else Ok None in
  match df with
  | Some df => Ok df
  | None => Raise (UnboundLocalError "df")
  end.

Definition age_ranges : list string :=
  ["0-5 years"; "6-10 years"; "11-15 years"; "16-20 years";
   "21-30 years"; "31-50 years"; "51+ years"].

Definition collect_housing_age_data (region : string) : result DataFrame :=
  let data : DataFrame :=
    if String.eqb region "washington" then
      [ ("age_range", strs age_ranges);
        ("percentage", nums [8; 12; 15; 18; 25; 18; 4]);
        ("avg_roof_age", nums [3; 8; 13; 18; 25; 20; 25]) ]
    else
      [ ("age_range", strs age_ranges);
        ("percentage", nums [7; 11; 14; 17; 27; 19; 5]);
        ("avg_roof_age", nums [3; 8; 13; 18; 26; 22; 27]) ] in
  let df := data in
  let* ranges := getitem df "age_range" in
  Ok (setitem df "in_treatment_window"
        (isin ranges ["6-10 years"; "11-15 years"])).

(** ** Section 2: RoofMaxxPredictiveModel *)

Definition prepare_features (df : DataFrame) : result DataFrame :=
  let features := df in
  let* features :=
    if has_col "median_income" features && has_col "median_home_value" features
    then
      let* income := getitem features "median_income" in
      let* home := getitem features "median_home_value" in
      let* ratio := series_op ndiv income home in
      Ok (setitem features "income_home_ratio" ratio)
    else Ok features in
  let* features :=
    if has_col "population" features && has_col "housing_units" features
    then
      let* population := getitem features "population" in
      let* units := getitem features "housing_units" in
      let* density := series_op ndiv population units in
      Ok (setitem features "population_density" density)
    else Ok features in
  Ok features.

Record LeadBreakdown : Type := {
  total_leads : Q;
  hot_leads : Q;
  warm_leads : Q;
  cold_leads : Q
}.

Record ConversionRates : Type := {
  hot_conversion : Q;
  warm_conversion : Q;
  cold_conversion : Q
}.

Record LeadForecast : Type := {
  leads : LeadBreakdown;
  conversion_rates : ConversionRates;
  projected_monthly_sales : Q;
  projected_monthly_revenue : Q;
  cost_per_lead : Q;
  cost_per_acquisition : Q;
  roi : Q
}.

(** The locals of [forecast_lead_generation], in the order of the source.
    A division by a nonzero literal cannot raise and is written [/]. *)
Definition base_leads_per_1k_spend : Q := 15.

Definition seo_multiplier (seo_score : Q) : Q := 1 + (seo_score / 100) * 2.

Definition content_multiplier (content_pieces : Q) : Q :=
  1 + (content_pieces / 50) * 1.5.

Definition review_multiplier (review_count : Q) : Q :=
  1 + (review_count / 100) * 0.5.

Definition monthly_leads (digital_spend seo_score content_pieces review_count : Q)
  : Q :=
  digital_spend / 1000 * base_leads_per_1k_spend *
  seo_multiplier seo_score * content_multiplier content_pieces *
  review_multiplier review_count.

Definition lead_breakdown (monthly_leads : Q) : LeadBreakdown :=
  {| total_leads := monthly_leads;
     hot_leads := monthly_leads * 0.25;
     warm_leads := monthly_leads * 0.45;
     cold_leads := monthly_leads * 0.30 |}.

Definition industry_conversion_rates : ConversionRates :=
  {| hot_conversion := 0.60;
     warm_conversion := 0.25;
     cold_conversion := 0.05 |}.

Definition projected_sales (lb : LeadBreakdown) (cr : ConversionRates) : Q :=
  hot_leads lb * hot_conversion cr +
  warm_leads lb * warm_conversion cr +
  cold_leads lb * cold_conversion cr.

(** The returned dict is built entry by entry: the three quotients are
    evaluated in the order cost per lead, cost per acquisition, ROI. *)
Definition forecast_lead_generation (base_data : DataFrame)
    (digital_spend seo_score content_pieces review_count : Q)
  : result LeadForecast :=
  let leads_total :=
    monthly_leads digital_spend seo_score content_pieces review_count in
  let breakdown := lead_breakdown leads_total in
  let rates := industry_conversion_rates in
  let sales := projected_sales breakdown rates in
  let* per_lead := truediv digital_spend leads_total in
  let* per_acquisition := truediv digital_spend sales in
  let* return_on_investment :=
    truediv (sales * 4500 - digital_spend) digital_spend in
  Ok {| leads := breakdown;
        conversion_rates := rates;
        projected_monthly_sales := sales;
        projected_monthly_revenue := sales * 4500;
        cost_per_lead := per_lead;
        cost_per_acquisition := per_acquisition;
        roi := return_on_investment |}.

Definition months : list string :=
  ["Jan"; "Feb"; "Mar"; "Apr"; "May"; "Jun";
   "Jul"; "Aug"; "Sep"; "Oct"; "Nov"; "Dec"].

Definition seasonal_index : list Q :=
  [0.4; 0.5; 0.9; 1.3; 1.6; 1.8; 1.7; 1.5; 1.2; 0.9; 0.5; 0.4].

Definition seasonal_demand_forecast (historical_data : option DataFrame)
  : DataFrame :=
  match historical_data with
  | None =>
      [ ("month", strs months);
        ("seasonal_index", nums seasonal_index);
        ("demand_category",
         strs ["Low"; "Low"; "Medium"; "High"; "Peak"; "Peak";
               "Peak"; "High"; "High"; "Medium"; "Low"; "Low"]) ]
  | Some forecast => forecast
  end.

(** ** Section 3: GeospatialAnalyzer *)

Definition wa_coordinates : gmap string (Q * Q) :=
  list_to_map
    [ ("King", (47.5480, -121.9836));
      ("Pierce", (47.0676, -122.1295));
      ("Snohomish", (48.0420, -121.7170));
      ("Spokane", (47.6588, -117.4260));
      ("Clark", (45.7466, -122.5194));
      ("Thurston", (46.9965, -122.8890));
      ("Kitsap", (47.6477, -122.6413));
      ("Yakima", (46.5890, -120.5435));
      ("Whatcom", (48.8426, -122.1361));
      ("Benton", (46.2632, -119.5419)) ].

(** The popup of a marker: the heading and the four numbers it shows.  The
    format [:,.0f] accepts a number and raises [ValueError] on a text; the
    rendered digits are not modelled. *)
Record Popup : Type := {
  heading : string;
  shown_metric : number;
  shown_population : number;
  shown_median_income : number;
  shown_qualified_roofs : number
}.

Record CircleMarker : Type := {
  location : Q * Q;
  radius : number;
  popup : Popup;
  color : string;
  fill : bool;
  fillColor : string;
  fillOpacity : Q
}.

Record FoliumMap : Type := {
  center : Q * Q;
  zoom_start : Z;
  tiles : string;
  children : list CircleMarker
}.

Record GeospatialAnalyzer : Type := {
  maps : gmap string FoliumMap
}.

Definition format_f0 (c : cell) : result number :=
  match c with
  | Num x => Ok x
  | Flag b => Ok (Fin (if b then 1 else 0))
  | Str _ => Raise ValueError
  end.

Definition add_to (marker : CircleMarker) (m : FoliumMap) : FoliumMap :=
  {| center := center m;
     zoom_start := zoom_start m;
     tiles := tiles m;
     children := children m ++ [marker] |}.

(** The name the loop body reads from a row, [None] when it runs [continue]. *)
Definition location_name (row : Row) : option cell :=
  if has_col "county" row then lookup_col "county" row
  else if has_col "province" row then lookup_col "province" row
  else None.

(** [wa_coordinates[name]] when [name in wa_coordinates]; a key that is not a
    text is in no case a key of the table. *)
Definition coordinates_of (name : cell) : option (string * (Q * Q)) :=
  match name with
  | Str s => match wa_coordinates !! s with
             | Some coords => Some (s, coords)
             | None => None
             end
  | _ => None
  end.

(** One iteration of the loop over [iterrows]. *)
Definition heatmap_step (metric : string) (m : FoliumMap) (row : Row)
  : result FoliumMap :=
  match location_name row with
  | None => Ok m
  | Some name =>
      match coordinates_of name with
      | None => Ok m
      | Some (title, coords) =>
          let* potential := format_f0 (row_get row metric (Num (Fin 0))) in
          let* population := format_f0 (row_get row "population" (Num (Fin 0))) in
          let* income := format_f0 (row_get row "median_income" (Num (Fin 0))) in
          let* roofs :=
            format_f0 (row_get row "est_qualified_roofs" (Num (Fin 0))) in
          let popup_html :=
            {| heading := title;
               shown_metric := potential;
               shown_population := population;
               shown_median_income := income;
               shown_qualified_roofs := roofs |} in
          let* value := as_number (row_get row metric (Num (Fin 0))) in
          let radius := ndiv value (Fin 100) in
          Ok (add_to {| location := coords;
                        radius := radius;
                        popup := popup_html;
                        color := "blue";
                        fill := true;
                        fillColor := "blue";
                        fillOpacity := 0.6 |} m)
      end
  end.

Fixpoint heatmap_loop (metric : string) (m : FoliumMap) (rows : list Row)
  : result FoliumMap :=
  match rows with
  | [] => Ok m
  | row :: rest =>
      let* m' := heatmap_step metric m row in
      heatmap_loop metric m' rest
  end.

Definition create_market_heatmap (self : GeospatialAnalyzer)
    (demographic_data : DataFrame) (metric : string)
  : result (FoliumMap * GeospatialAnalyzer) :=
  let m := {| center := (47.5, -120.5);
              zoom_start := 7;
              tiles := "OpenStreetMap";
              children := [] |} in
  let* m := heatmap_loop metric m (iterrows demographic_data) in
  Ok (m, {| maps := <[ "opportunity_heatmap" := m ]> (maps self) |}).

(** The ten Washington counties, in the order of [wa_coordinates]. *)
Definition wa_counties : list string :=
  ["King"; "Pierce"; "Snohomish"; "Spokane"; "Clark";
   "Thurston"; "Kitsap"; "Yakima"; "Whatcom"; "Benton"].

(** The four cells a marker shows can be formatted as numbers. *)
Definition renderable (metric : string) (row : Row) : bool :=
  numeric_series
    [ row_get row metric (Num (Fin 0));
      row_get row "population" (Num (Fin 0));
      row_get row "median_income" (Num (Fin 0));
      row_get row "est_qualified_roofs" (Num (Fin 0)) ].

(** The region name of a row when it is one of [names], else [None]. *)
Definition named_in (names : list string) (row : Row) : option string :=
  match location_name row with
  | Some (Str name) =>
      if existsb (String.eqb name) names then Some name else None
  | _ => None
  end.

(** ** Section 4: customer analytics *)

Record CLV : Type := {
  direct_revenue : Q;
  referral_value : Q;
  total_clv : Q;
  timespan_years : Q
}.

Definition calculate_customer_lifetime_value
    (avg_treatment_cost treatments referral_rate : Q) : CLV :=
  let direct_revenue := avg_treatment_cost * treatments in
  let referral_value := avg_treatment_cost * referral_rate in
  {| direct_revenue := direct_revenue;
     referral_value := referral_value;
     total_clv := direct_revenue + referral_value;
     timespan_years := treatments * 5 |}.

(** ** Section 5: the Streamlit dashboard script *)

(** What the user has set in a widget, keyed by the widget's label; a run of
    the script reads the session and emits the elements it draws. *)
Inductive widget_value : Type :=
| Selected (index : nat)
| Dates (start stop : Z)
| Amount (n : Z).

Record Session : Type := {
  now : Z;
  widgets : gmap string widget_value
}.

Inductive element : Type :=
| Title (body : string)
| Markdown (body : string)
| Header (body : string)
| Selectbox (label : string) (options : list string) (value : string)
| DateInput (label : string) (value : Z * Z)
| NumberInput (label : string) (value : Z)
| Tabs (labels : list string)
| Columns (count : nat)
| Metric (label value delta : string).

(** An element together with the containers it is drawn in, outermost first. *)
Definition placed : Type := list string * element.

Definition App (A : Type) : Type := Session -> A * list placed.

Definition app_ret {A : Type} (a : A) : App A := fun _ => (a, []).

Definition app_bind {A B : Type} (m : App A) (k : A -> App B) : App B :=
  fun session =>
    let (a, drawn) := m session in
    let (b, drawn') := k a session in
    (b, (drawn ++ drawn')%list).

Notation "'do*' x ':=' m 'in' k" := (app_bind m (fun x => k))
  (at level 10, x name, m at level 100, k at level 200).

Definition draw (e : element) : App unit := fun _ => ((), [([], e)]).

(** [with container: body], and [st.sidebar.f(...)] for [within "sidebar"]. *)
Definition within {A : Type} (container : string) (body : App A) : App A :=
  fun session =>
    let (a, drawn) := body session in
    (a, map (fun '(path, e) => (container :: path, e)) drawn).

Definition datetime_now : App Z := fun session => (now session, []).

Definition selectbox (label : string) (options : list string) : App string :=
  fun session =>
    let index := match widgets session !! label with
                 | Some (Selected i) => i
                 | _ => O
                 end in
    let value := nth index options (hd "" options) in
    (value, [([], Selectbox label options value)]).

Definition date_input (label : string) (value : Z * Z) : App (Z * Z) :=
  fun session =>
    let chosen := match widgets session !! label with
                  | Some (Dates start stop) => (start, stop)
                  | _ => value
                  end in
    (chosen, [([], DateInput label chosen)]).

Definition number_input (label : string) (min_value max_value value step : Z)
  : App Z :=
  fun session =>
    let chosen := match widgets session !! label with
                  | Some (Amount n) => Z.max min_value (Z.min max_value n)
                  | _ => value
                  end in
    (chosen, [([], NumberInput label chosen)]).

Definition territories : list string :=
  ["Washington - King County"; "Washington - Pierce County";
   "Washington - Snohomish County"; "Canada - British Columbia";
   "Canada - Ontario"; "Canada - Alberta"].

(** The script from its title to the rule under the four KPI metrics of the
    first tab.  The page configuration and the style sheet before the title,
    and the charts and tabs after the rule, are left out: they read no
    widget and draw no metric into the first tab.  Emoji prefixes of the
    labels are dropped. *)
Definition dashboard : App unit :=
  do* _ := draw (Title "Roof Maxx Market Analytics Dashboard") in
  do* _ := draw (Markdown "### Real-time Sales Intelligence & Predictive Analytics") in
  do* _ := within "sidebar" (draw (Header "Territory Settings")) in
  do* territory := within "sidebar" (selectbox "Select Territory" territories) in
  do* today := datetime_now in
  do* today' := datetime_now in
  do* date_range :=
    within "sidebar" (date_input "Analysis Period" (today - 90, today')%Z) in
  do* _ := within "sidebar" (draw (Header "Marketing Investment")) in
  do* monthly_marketing :=
    within "sidebar"
      (number_input "Monthly Marketing Budget ($)" 1000 50000 5000 500) in
  do* _ := draw (Tabs ["Executive Dashboard"; "Lead Generation";
                       "Territory Analysis"; "Predictive Forecasts";
                       "Customer Insights"]) in
  within "tab1"
    (do* _ := draw (Columns 4) in
     do* _ := within "col1"
                (draw (Metric "Monthly Leads" "187" "+23 vs last month")) in
     do* _ := within "col2" (draw (Metric "Conversion Rate" "28.5%" "+3.2%")) in
     do* _ := within "col3"
                (draw (Metric "Revenue (MTD)" "$241,500" "+$45,300")) in
     do* _ := within "col4" (draw (Metric "Pipeline Value" "$1.2M" "+18%")) in
     draw (Markdown "---")).

(** The metrics drawn inside a given tab, in the order they are drawn. *)
Definition metrics_of_tab (tab : string) (drawn : list placed)
  : list (string * string * string) :=
  omap (fun '(path, e) =>
          match path, e with
          | container :: _, Metric label value delta =>
              if String.eqb container tab then Some (label, value, delta)
              else None
          | _, _ => None
          end) drawn.

Definition render (session : Session) : list placed := snd (dashboard session).

(** ** The quoted figures in binary64

    The expressions behind the figures the claims quote, with the operations
    of IEEE binary64 in the order Python evaluates them; they show that the
    exact arithmetic of the embedding does not move these figures. *)
Module Binary64.
Import PrimFloat.
#[local] Set Warnings "-inexact-float".
Local Open Scope float_scope.

Definition est_asphalt_roofs (housing_units homeownership_rate asphalt : float)
  : float :=
  housing_units * homeownership_rate * asphalt.

Definition referral_value (avg_treatment_cost referral_rate : float) : float :=
  avg_treatment_cost * referral_rate.

Definition total_clv (avg_treatment_cost treatments referral_rate : float)
  : float :=
  avg_treatment_cost * treatments + avg_treatment_cost * referral_rate.

Definition seasonal_index : list float :=
  [0.4; 0.5; 0.9; 1.3; 1.6; 1.8; 1.7; 1.5; 1.2; 0.9; 0.5; 0.4].

(** [sum(seasonal_index)], added from the left starting at 0. *)
Definition seasonal_sum : float := fold_left add seasonal_index 0.

Definition king_county : float := est_asphalt_roofs 953923 0.61 0.70.

Definition between (lo x hi : float) : bool := leb lo x && leb x hi.

Definition king_county_estimate : bool :=
  between 407325.12 king_county 407325.13.

Definition default_referral_value : bool := eqb (referral_value 4500 0.3) 1350.

Definition default_total_clv : bool := eqb (total_clv 4500 3 0.3) 14850.

Definition seasonal_sum_estimate : bool := between 12.69 seasonal_sum 12.71.
End Binary64.

(** * The rest of the module *)

(** ** Frames, continued *)

Definition nadd (x y : number) : number :=
  match x, y with
  | NaN, _ | _, NaN => NaN
  | Fin a, Fin b => Fin (a + b)
  | PosInf, NegInf | NegInf, PosInf => NaN
  | PosInf, _ | _, PosInf => PosInf
  | NegInf, _ | _, NegInf => NegInf
  end.

(** Elementwise operation of a Python scalar with a column, the scalar on
    the left. *)
Fixpoint scalar_op_series (op : number -> number -> number) (k : Q) (xs : Series)
  : result Series :=
  match xs with
  | x :: xs' =>
      let* z := cell_op op (Num (Fin k)) x in
      let* zs := scalar_op_series op k xs' in
      Ok (z :: zs)
  | [] => Ok []
  end.

Definition add_keys (seen : list string) (row : Row) : list string :=
  fold_left (fun acc '(key, _) =>
               if existsb (String.eqb key) acc then acc else (acc ++ [key])%list)
            row seen.

(** The keys of a list of dicts, in the order of their first appearance. *)
Definition record_keys (records : list Row) : list string :=
  fold_left add_keys records [].

(** [pd.DataFrame(records)] for a list of dicts: one column per key, one row
    per dict, NaN where a dict lacks the key; no column for an empty list. *)
Definition frame_of_records (records : list Row) : DataFrame :=
  map (fun key => (key, map (fun row => row_get row key (Num NaN)) records))
      (record_keys records).

(** [df[cols]] for a list of labels; pandas names all the missing labels in
    its [KeyError], the key kept here is the first of them. *)
Fixpoint select_columns (df : DataFrame) (cols : list string) : result DataFrame :=
  match cols with
  | [] => Ok []
  | c :: rest =>
      let* s := getitem df c in
      let* selected := select_columns df rest in
      Ok ((c, s) :: selected)
  end.

Definition is_nan (c : cell) : bool :=
  match c with
  | Num NaN => true
  | _ => false
  end.

Fixpoint numbers_of (s : Series) : result (list number) :=
  match s with
  | [] => Ok []
  | c :: rest =>
      let* x := as_number c in
      let* xs := numbers_of rest in
      Ok (x :: xs)
  end.

(** [s.mean()]: the mean of the cells that are not NaN, NaN when there is
    none. *)
Definition series_mean (s : Series) : result number :=
  let* xs := numbers_of (List.filter (fun c => negb (is_nan c)) s) in
  match xs with
  | [] => Ok NaN
  | _ => Ok (ndiv (fold_left nadd xs (Fin 0))
                  (Fin (inject_Z (Z.of_nat (length xs)))))
  end.

(** [df.fillna(df.mean())]: every NaN becomes the mean of its column. *)
Fixpoint fillna_mean (df : DataFrame) : result DataFrame :=
  match df with
  | [] => Ok []
  | (c, s) :: rest =>
      let* m := series_mean s in
      let* filled := fillna_mean rest in
      Ok ((c, map (fun x => if is_nan x then Num m else x) s) :: filled)
  end.

(** [df[name] = values] for an array: its length must be the number of rows. *)
Definition assign_array (df : DataFrame) (name : string) (values : list Q)
  : result DataFrame :=
  if Nat.eqb (length values) (nrows df) then Ok (setitem df name (nums values))
  else Raise ValueError.

(** ** Section 1, continued: weather and competitors *)

(** The state of numpy's global generator is threaded through the draws;
    [uniform low high] stands for [np.random.uniform(low, high)] and
    [randint low high] for [np.random.randint(low, high)]. *)
Section Randomness.

Variable G : Type.
Variable uniform : Q -> Q -> G -> Q * G.
Variable randint : Z -> Z -> G -> Z * G.

(** The dict of one location; its six draws are made in the order of the
    entries. *)
Definition weather_record (lat lon : Q) (name : string) (g : G) : Row * G :=
  let '(precip, g) := uniform 30 50 g in
  let '(cycles, g) := randint 20 80 g in
  let '(summer, g) := uniform 75 85 g in
  let '(winter, g) := uniform 25 40 g in
  let '(snow, g) := randint 5 30 g in
  let '(severe, g) := randint 2 15 g in
  ([ ("location", Str name);
     ("latitude", Num (Fin lat));
     ("longitude", Num (Fin lon));
     ("avg_annual_precip_inches", Num (Fin precip));
     ("freeze_thaw_cycles", Num (Fin (inject_Z cycles)));
     ("avg_high_temp_summer", Num (Fin summer));
     ("avg_low_temp_winter", Num (Fin winter));
     ("snow_days_annual", Num (Fin (inject_Z snow)));
     ("severe_weather_events", Num (Fin (inject_Z severe))) ], g).

Fixpoint weather_records (locations : list (Q * Q * string)) (g : G)
  : list Row * G :=
  match locations with
  | [] => ([], g)
  | (lat, lon, name) :: rest =>
      let '(data, g) := weather_record lat lon name g in
      let '(weather_data, g) := weather_records rest g in
      (data :: weather_data, g)
  end.

Definition collect_weather_data (locations : list (Q * Q * string)) (g : G)
  : DataFrame * G :=
  let '(weather_data, g) := weather_records locations g in
  (frame_of_records weather_data, g).

End Randomness.

(** The keys of a weather dict, in the order of the source. *)
Definition weather_keys : list string :=
  ["location"; "latitude"; "longitude"; "avg_annual_precip_inches";
   "freeze_thaw_cycles"; "avg_high_temp_summer"; "avg_low_temp_winter";
   "snow_days_annual"; "severe_weather_events"].

(** What a weather dict holds for one location. *)
Definition weather_row (location : Q * Q * string) (row : Row) : Prop :=
  exists precip cycles summer winter snow severe,
    row = [ ("location", Str (snd location));
            ("latitude", Num (Fin (fst (fst location))));
            ("longitude", Num (Fin (snd (fst location))));
            ("avg_annual_precip_inches", Num (Fin precip));
            ("freeze_thaw_cycles", Num (Fin (inject_Z cycles)));
            ("avg_high_temp_summer", Num (Fin summer));
            ("avg_low_temp_winter", Num (Fin winter));
            ("snow_days_annual", Num (Fin (inject_Z snow)));
            ("severe_weather_events", Num (Fin (inject_Z severe))) ] /\
    (30 <= precip /\ precip < 50) /\ (20 <= cycles < 80)%Z /\
    (75 <= summer /\ summer < 85) /\ (25 <= winter /\ winter < 40) /\
    (5 <= snow < 30)%Z /\ (2 <= severe < 15)%Z.

Definition collect_competitor_data (region : string) : DataFrame :=
  [ ("business_name",
     strs ["ABC Roofing"; "Elite Roof Repair"; "Northwest Roofing Co";
           "Precision Roofing"; "Summit Roof Solutions"; "Pacific Roof Care"]);
    ("service_type",
     strs ["Replacement"; "Repair & Replacement"; "Replacement";
           "Replacement & Coating"; "Replacement"; "Coating & Repair"]);
    ("avg_replacement_cost", nums [22000; 24500; 19800; 21500; 26000; 23000]);
    ("avg_coating_cost", nums [0; 0; 0; 4500; 0; 5200]);
    ("review_rating", nums [4.2; 4.7; 3.9; 4.5; 4.8; 4.1]);
    ("years_in_business", nums [15; 8; 22; 12; 6; 18]);
    ("service_area_radius_miles", nums [30; 25; 50; 20; 15; 35]) ].

(** ** Section 2, continued: the penetration model *)

Definition feature_cols : list string :=
  ["population"; "median_income"; "median_home_value";
   "homeownership_rate"; "market_potential_annual"].

Fixpoint insert_descending (x : string * Q) (sorted : list (string * Q))
  : list (string * Q) :=
  match sorted with
  | [] => [x]
  | y :: rest =>
      if Qle_bool (snd x) (snd y) then y :: insert_descending x rest
      else x :: sorted
  end.

(** [pd.DataFrame({'feature': ..., 'importance': ...}).sort_values(
    'importance', ascending=False)]; the two arrays must have one length.
    The order of rows of equal importance is the one of this insertion sort. *)
Definition importance_table (features : list string) (importance : list Q)
  : result DataFrame :=
  if Nat.eqb (length features) (length importance) then
    let rows := fold_right insert_descending [] (combine features importance) in
    Ok [ ("feature", strs (map fst rows)); ("importance", nums (map snd rows)) ]
  else Raise ValueError.

(** The regressor and the seeded sample are taken as given: [fit X y] stands
    for [RandomForestRegressor(n_estimators=100, random_state=42).fit(X, y)]
    (it may raise), [predict] and [feature_importances] for the attributes
    of the fitted model, and [uniform_sample low high n] for
    [np.random.uniform(low, high, n)] right after [np.random.seed(42)]. *)
Section Regression.

Variable Model : Type.
Variable fit : DataFrame -> Series -> result Model.
Variable predict : Model -> DataFrame -> list Q.
Variable feature_importances : Model -> list Q.
Variable uniform_sample : Q -> Q -> nat -> list Q.

Record RoofMaxxPredictiveModel : Type := {
  models : gmap string Model
}.

Definition predict_market_penetration (self : RoofMaxxPredictiveModel)
    (demographic_data : DataFrame) (marketing_spend months_in_market : Q)
  : result (DataFrame * DataFrame * RoofMaxxPredictiveModel) :=
  let* X := prepare_features demographic_data in
  let* selected := select_columns X feature_cols in
  let* X_model := fillna_mean selected in
  let rows := nrows X_model in
  let X_model :=
    setitem X_model "marketing_spend" (repeat (Num (Fin marketing_spend)) rows) in
  let X_model :=
    setitem X_model "months_in_market"
      (repeat (Num (Fin months_in_market)) rows) in
  let* population := getitem X "population" in
  let* per_capita := scalar_op_series ndiv marketing_spend population in
  let X_model := setitem X_model "marketing_per_capita" per_capita in
  let n_samples := nrows X_model in
  let base_conversion := 0.02 in
  let* per_capita := getitem X_model "marketing_per_capita" in
  let* scaled := series_op_scalar nmul per_capita 10000 in
  let* marketing_multiplier := scalar_op_series nadd 1 scaled in
  let time_multiplier := Qmin (months_in_market / 24) 1 in
  let* potential := getitem X_model "market_potential_annual" in
  let* y := series_op_scalar nmul potential base_conversion in
  let* y := series_op nmul y marketing_multiplier in
  let* y_potential := series_op_scalar nmul y time_multiplier in
  let* y_actual :=
    series_op nmul y_potential (nums (uniform_sample 0.7 1.3 n_samples)) in
  let* model := fit X_model y_actual in
  let predictions := predict model X_model in
  let results := X in
  let* results := assign_array results "predicted_annual_sales" predictions in
  let* results :=
    assign_array results "predicted_revenue"
      (map (fun p => p * 4500) predictions) in
  let* potential := getitem X "market_potential_annual" in
  let* share := series_op ndiv (nums predictions) potential in
  let* share := series_op_scalar nmul share 100 in
  let results := setitem results "market_share_percentage" share in
  let* feature_importance :=
    importance_table (map fst X_model) (feature_importances model) in
  Ok (results, feature_importance,
      {| models := <[ "penetration" := model ]> (models self) |}).

End Regression.

(** ** Section 3, continued: territory coverage and competitor proximity *)

Record Icon : Type := {
  icon_color : string;
  icon_name : string
}.

Record Marker : Type := {
  marker_location : Q * Q;
  marker_popup : string;
  marker_icon : Icon
}.

(** The popup of the circle shows the radius in miles; its digits are not
    modelled. *)
Record Circle : Type := {
  circle_location : Q * Q;
  circle_radius : Q;
  circle_color : string;
  circle_fill : bool;
  circle_fillOpacity : Q;
  circle_popup_miles : Q
}.

Inductive Layer : Type :=
| MarkerLayer (marker : Marker)
| CircleLayer (circle : Circle).

Record LayeredMap : Type := {
  map_location : Q * Q;
  map_zoom_start : Z;
  map_tiles : string;
  layers : list Layer
}.



Definition add_layer (layer : Layer) (m : LayeredMap) : LayeredMap :=
  {| map_location := map_location m;
     map_zoom_start := map_zoom_start m;
     map_tiles := map_tiles m;
     layers := (layers m ++ [layer])%list |}.


(** [np.mean(xs)]: NaN (and a warning) for an empty list. *)
Definition np_mean (xs : list Q) : number :=
  match xs with
  | [] => NaN
  | _ => Fin (fold_left Qplus xs 0 / inject_Z (Z.of_nat (length xs)))
  end.

(** [folium.Map(location=..., zoom_start=...)]: folium validates the
    location and raises [ValueError] when a coordinate is NaN. *)
Definition folium_Map (location : number * number) (zoom_start : Z)
  : result LayeredMap :=
  match location with
  | (Fin lat, Fin lon) =>
      Ok {| map_location := (lat, lon);
            map_zoom_start := zoom_start;
            map_tiles := "OpenStreetMap";
            layers := [] |}
  | _ => Raise ValueError
  end.

Definition dealer_marker (dealer : Q * Q * string) : Layer :=
  let '(lat, lon, name) := dealer in
  MarkerLayer {| marker_location := (lat, lon);
                 marker_popup := "Roof Maxx: " ++ name;
                 marker_icon := {| icon_color := "blue";
                                   icon_name := "star" |} |}.

Definition competitor_marker (competitor : Q * Q * string * string) : Layer :=
  let '(lat, lon, name, comp_type) := competitor in
  MarkerLayer {| marker_location := (lat, lon);
                 marker_popup := comp_type ++ ": " ++ name;
                 marker_icon := {| icon_color := "red";
                                   icon_name := "info-sign" |} |}.

Definition competitor_proximity_analysis
    (dealer_locations : list (Q * Q * string))
    (competitor_locations : list (Q * Q * string * string))
  : result LayeredMap :=
  let all_lats :=
    (map (fun loc => fst (fst loc)) dealer_locations
     ++ map (fun loc => fst (fst (fst loc))) competitor_locations)%list in
  let all_lons :=
    (map (fun loc => snd (fst loc)) dealer_locations
     ++ map (fun loc => snd (fst (fst loc))) competitor_locations)%list in
  let center := (np_mean all_lats, np_mean all_lons) in
  let* m := folium_Map center 8 in
  let m := fold_left (fun m dealer => add_layer (dealer_marker dealer) m)
                     dealer_locations m in
  let m := fold_left (fun m competitor =>
                        add_layer (competitor_marker competitor) m)
                     competitor_locations m in
  Ok m.

(** [marker] is the marker the heatmap loop adds for [row]: named after the
    row, placed at the coordinates of that name, with the metric of the row
    shown in the popup and, divided by 100, as radius. *)
Definition marker_from (metric : string) (row : Row) (marker : CircleMarker)
  : Prop :=
  named_in wa_counties row = Some (heading (popup marker)) /\
  wa_coordinates !! heading (popup marker) = Some (location marker) /\
  as_number (row_get row metric (Num (Fin 0)))
  = Ok (shown_metric (popup marker)) /\
  radius marker = ndiv (shown_metric (popup marker)) (Fin 100).

(** The rows the heatmap loop does not skip. *)
Definition named_rows (rows : list Row) : list Row :=
  List.filter (fun row => match named_in wa_counties row with
                          | Some _ => true
                          | None => false
                          end) rows.

(** ** Section 4, continued: segments *)

Definition segment_customer_base (customer_data : DataFrame)
  : list (string * string) :=
  [ ("Champions",
     "High value, recent customers - upsell to 2nd/3rd treatment");
    ("Loyal", "Regular customers, promote referral program");
    ("Potential Loyalists", "Recent customers, encourage reviews");
    ("New Customers", "First treatment, nurture for retention");
    ("At Risk",
     "Haven't responded to follow-ups, re-engagement campaign");
    ("Cant Lose", "High value but losing, special retention offer") ].

(** ** Section 5, continued *)

Definition is_widget (e : element) : bool :=
  match e with
  | Selectbox _ _ _ | DateInput _ _ | NumberInput _ _ => true
  | _ => false
  end.

(** What a run draws apart from its input widgets. *)
Definition static_part (drawn : list placed) : list placed :=
  List.filter (fun '(_, e) => negb (is_widget e)) drawn.

(** * Properties *)

(** ** Frames *)

Lemma bind_ok {A B : Type} (m : result A) (k : A -> result B) (b : B) :
  bind m k = Ok b -> exists a, m = Ok a /\ k a = Ok b.
Proof.
  destruct m as [a|e]; simpl; intros H; [eauto | discriminate].
Qed.

Ltac bind_inv H :=
  let a := fresh "v" in
  let Ha := fresh "E" in
  apply bind_ok in H; destruct H as (a & Ha & H).

Lemma lookup_col_setitem_eq (df : DataFrame) (name : string) (s : Series) :
  lookup_col name (setitem df name s) = Some s.
Proof.
  induction df as [|[c v] rest IH]; simpl.
  - now rewrite String.eqb_refl.
  - destruct (String.eqb c name) eqn:E; simpl; rewrite E; auto.
Qed.

Lemma lookup_col_setitem_ne (df : DataFrame) (name other : string) (s : Series) :
  name <> other ->
  lookup_col other (setitem df name s) = lookup_col other df.
Proof.
  intros Hne. induction df as [|[c v] rest IH]; simpl.
  - destruct (String.eqb_spec name other); [contradiction | reflexivity].
  - destruct (String.eqb_spec c name) as [->|Hc]; simpl.
    + destruct (String.eqb_spec name other); [contradiction | reflexivity].
    + destruct (String.eqb c other); auto.
Qed.

Lemma cell_at_setitem_eq (df : DataFrame) (name : string) (s : Series) (i : nat) :
  cell_at (setitem df name s) name i = nth_error s i.
Proof. unfold cell_at. now rewrite lookup_col_setitem_eq. Qed.

Lemma cell_at_setitem_ne (df : DataFrame) (name other : string) (s : Series)
    (i : nat) :
  name <> other -> cell_at (setitem df name s) other i = cell_at df other i.
Proof. intros H. unfold cell_at. now rewrite lookup_col_setitem_ne. Qed.

Lemma getitem_ok (df : DataFrame) (name : string) (s : Series) :
  getitem df name = Ok s -> lookup_col name df = Some s.
Proof.
  unfold getitem. destruct (lookup_col name df); intros H; now inversion H.
Qed.

Lemma series_op_nth (op : number -> number -> number) (xs ys zs : Series) :
  series_op op xs ys = Ok zs ->
  forall i a b,
    nth_error xs i = Some a -> nth_error ys i = Some b ->
    exists c, cell_op op a b = Ok c /\ nth_error zs i = Some c.
Proof.
  revert ys zs. induction xs as [|x xs IH]; intros ys zs H i a b Ha Hb.
  - destruct i; discriminate.
  - destruct ys as [|y ys]; [destruct i; discriminate|].
    simpl in H. bind_inv H. bind_inv H. inversion H; subst zs.
    destruct i as [|i]; simpl in *.
    + inversion Ha; inversion Hb; subst. eauto.
    + eapply IH; eauto.
Qed.

Lemma series_op_scalar_nth (op : number -> number -> number) (xs zs : Series)
    (k : Q) :
  series_op_scalar op xs k = Ok zs ->
  forall i a,
    nth_error xs i = Some a ->
    exists c, cell_op op a (Num (Fin k)) = Ok c /\ nth_error zs i = Some c.
Proof.
  revert zs. induction xs as [|x xs IH]; intros zs H i a Ha.
  - destruct i; discriminate.
  - simpl in H. bind_inv H. bind_inv H. inversion H; subst zs.
    destruct i as [|i]; simpl in *.
    + inversion Ha; subst. eauto.
    + eapply IH; eauto.
Qed.

(** ** Section 1: the collector *)

Lemma addressable_market_cells (df df' : DataFrame) (asphalt qualify replacement : Q) :
  addressable_market df asphalt qualify replacement = Ok df' ->
  forall i units rate,
    cell_at df "housing_units" i = Some (Num (Fin units)) ->
    cell_at df "homeownership_rate" i = Some (Num (Fin rate)) ->
    cell_at df' "est_asphalt_roofs" i = Some (Num (Fin (units * rate * asphalt)))
    /\ cell_at df' "est_qualified_roofs" i
       = Some (Num (Fin (units * rate * asphalt * qualify)))
    /\ cell_at df' "market_potential_annual" i
       = Some (Num (Fin (units * rate * asphalt * qualify * replacement))).
Proof.
  unfold addressable_market. intros H i units rate Hu Hr.
  bind_inv H. bind_inv H. bind_inv H. bind_inv H. bind_inv H. bind_inv H.
  bind_inv H. bind_inv H. inversion H; subst df'; clear H.
  apply getitem_ok in E, E0, E3, E5.
  rewrite lookup_col_setitem_eq in E3. inversion E3; subst v3; clear E3.
  rewrite lookup_col_setitem_eq in E5. inversion E5; subst v5; clear E5.
  unfold cell_at in Hu, Hr. rewrite E in Hu. rewrite E0 in Hr.
  destruct (series_op_nth _ _ _ _ E1 _ _ _ Hu Hr) as (c1 & Hc1 & Hn1).
  simpl in Hc1. inversion Hc1; subst c1; clear Hc1.
  destruct (series_op_scalar_nth _ _ _ _ E2 _ _ Hn1) as (c2 & Hc2 & Hn2).
  simpl in Hc2. inversion Hc2; subst c2; clear Hc2.
  destruct (series_op_scalar_nth _ _ _ _ E4 _ _ Hn2) as (c3 & Hc3 & Hn3).
  simpl in Hc3. inversion Hc3; subst c3; clear Hc3.
  destruct (series_op_scalar_nth _ _ _ _ E6 _ _ Hn3) as (c4 & Hc4 & Hn4).
  simpl in Hc4. inversion Hc4; subst c4; clear Hc4.
  rewrite cell_at_setitem_eq.
  rewrite !cell_at_setitem_ne by discriminate.
  rewrite cell_at_setitem_eq.
  rewrite !cell_at_setitem_ne by discriminate.
  rewrite cell_at_setitem_eq.
  auto.
Qed.

Lemma addressable_market_keeps (df df' : DataFrame) (asphalt qualify replacement : Q)
    (name : string) :
  addressable_market df asphalt qualify replacement = Ok df' ->
  name <> "est_asphalt_roofs" -> name <> "est_qualified_roofs" ->
  name <> "market_potential_annual" ->
  lookup_col name df' = lookup_col name df.
Proof.
  unfold addressable_market. intros H N1 N2 N3.
  bind_inv H. bind_inv H. bind_inv H. bind_inv H. bind_inv H. bind_inv H.
  bind_inv H. bind_inv H. inversion H; subst df'.
  rewrite !lookup_col_setitem_ne by congruence. reflexivity.
Qed.

Lemma collect_demographic_data_ok (region : string) (df : DataFrame) :
  collect_demographic_data region = Ok df ->
  (region = "washington"
   /\ addressable_market washington_demographics 0.70 0.90 0.07 = Ok df)
  \/ (region = "canada"
      /\ addressable_market canada_demographics 0.72 0.85 0.065 = Ok df).
Proof.
  unfold collect_demographic_data. intros H.
  destruct (String.eqb_spec region "washington") as [->|Hw].
  - left. split; [reflexivity|].
    bind_inv H. bind_inv E. inversion E; subst v. now inversion H; subst.
  - destruct (String.eqb_spec region "canada") as [->|Hc].
    + right. split; [reflexivity|].
      bind_inv H. bind_inv E. inversion E; subst v. now inversion H; subst.
    + simpl in H. discriminate.
Qed.

Lemma washington_rows (i : nat) :
  (i < 10)%nat ->
  exists units rate,
    cell_at washington_demographics "housing_units" i = Some (Num (Fin units)) /\
    cell_at washington_demographics "homeownership_rate" i
    = Some (Num (Fin rate)).
Proof.
  intros Hi.
  do 10 (destruct i as [|i]; [eexists; eexists; split; reflexivity|]).
  lia.
Qed.

Lemma canada_rows (i : nat) :
  (i < 6)%nat ->
  exists units rate,
    cell_at canada_demographics "housing_units" i = Some (Num (Fin units)) /\
    cell_at canada_demographics "homeownership_rate" i = Some (Num (Fin rate)).
Proof.
  intros Hi.
  do 6 (destruct i as [|i]; [eexists; eexists; split; reflexivity|]).
  lia.
Qed.

Lemma washington_frame_rows (df : DataFrame) :
  addressable_market washington_demographics 0.70 0.90 0.07 = Ok df ->
  nrows df = 10%nat.
Proof. intros H. vm_compute in H. inversion H. reflexivity. Qed.

Lemma canada_frame_rows (df : DataFrame) :
  addressable_market canada_demographics 0.72 0.85 0.065 = Ok df ->
  nrows df = 6%nat.
Proof. intros H. vm_compute in H. inversion H. reflexivity. Qed.

(** C1 (the general part, and King County with the figure the code yields).
    Both regions return a frame (ten counties, six provinces).  In every row
    of a returned frame the estimated asphalt roofs are housing units x
    homeownership rate x 0.70 (Washington) or x 0.72 (Canada), the qualified
    roofs are asphalt roofs x 0.90 (0.85), and the annual market potential is
    qualified roofs x 0.07 (0.065).  For King County (953923 units, rate
    0.61) the estimated asphalt roofs are 407325.121, that is 407325.1 to one
    decimal. *)
Theorem demographic_derived_fields :
  (exists wa ca,
      collect_demographic_data "washington" = Ok wa /\ nrows wa = 10%nat /\
      collect_demographic_data "canada" = Ok ca /\ nrows ca = 6%nat) /\
  (forall region df i,
      collect_demographic_data region = Ok df -> (i < nrows df)%nat ->
      exists units rate asphalt_roofs qualified_roofs potential,
        cell_at df "housing_units" i = Some (Num (Fin units)) /\
        cell_at df "homeownership_rate" i = Some (Num (Fin rate)) /\
        cell_at df "est_asphalt_roofs" i = Some (Num (Fin asphalt_roofs)) /\
        cell_at df "est_qualified_roofs" i = Some (Num (Fin qualified_roofs)) /\
        cell_at df "market_potential_annual" i = Some (Num (Fin potential)) /\
        (region = "washington" ->
         asphalt_roofs = units * rate * 0.70 /\
         qualified_roofs = asphalt_roofs * 0.90 /\
         potential = qualified_roofs * 0.07) /\
        (region = "canada" ->
         asphalt_roofs = units * rate * 0.72 /\
         qualified_roofs = asphalt_roofs * 0.85 /\
         potential = qualified_roofs * 0.065)) /\
  (exists df x,
      collect_demographic_data "washington" = Ok df /\
      cell_at df "county" 0 = Some (Str "King") /\
      cell_at df "housing_units" 0 = Some (Num (Fin 953923)) /\
      cell_at df "homeownership_rate" 0 = Some (Num (Fin 0.61)) /\
      cell_at df "est_asphalt_roofs" 0 = Some (Num (Fin x)) /\
      x == 953923 * 0.61 * 0.70 /\
      Qabs (x - 407325.1) <= 0.05).
Proof.
  split; [|split].
  - eexists. eexists. vm_compute. repeat split; reflexivity.
  - intros region df i H Hi.
    destruct (collect_demographic_data_ok _ _ H) as [[-> Hm]|[-> Hm]].
    + rewrite (washington_frame_rows _ Hm) in Hi.
      destruct (washington_rows _ Hi) as (units & rate & Hu & Hr).
      destruct (addressable_market_cells _ _ _ _ _ Hm _ _ _ Hu Hr)
        as (Ha & Hq & Hp).
      exists units, rate, (units * rate * 0.70), (units * rate * 0.70 * 0.90),
        (units * rate * 0.70 * 0.90 * 0.07).
      unfold cell_at at 1 2.
      rewrite !(addressable_market_keeps _ _ _ _ _ _ Hm) by discriminate.
      repeat (split; [assumption|]).
      split; [intros _; repeat split | intros Hc; discriminate Hc].
    + rewrite (canada_frame_rows _ Hm) in Hi.
      destruct (canada_rows _ Hi) as (units & rate & Hu & Hr).
      destruct (addressable_market_cells _ _ _ _ _ Hm _ _ _ Hu Hr)
        as (Ha & Hq & Hp).
      exists units, rate, (units * rate * 0.72), (units * rate * 0.72 * 0.85),
        (units * rate * 0.72 * 0.85 * 0.065).
      unfold cell_at at 1 2.
      rewrite !(addressable_market_keeps _ _ _ _ _ _ Hm) by discriminate.
      repeat (split; [assumption|]).
      split; [intros Hc; discriminate Hc | intros _; repeat split].
  - eexists. eexists.
    split; [vm_compute; reflexivity|].
    repeat split; try reflexivity; vm_compute; discriminate.
Qed.

Lemma demographic_derived_fields_witness :
  exists df units rate asphalt_roofs,
    collect_demographic_data "washington" = Ok df /\
    cell_at df "county" 3 = Some (Str "Spokane") /\
    cell_at df "housing_units" 3 = Some (Num (Fin units)) /\
    cell_at df "homeownership_rate" 3 = Some (Num (Fin rate)) /\
    cell_at df "est_asphalt_roofs" 3 = Some (Num (Fin asphalt_roofs)) /\
    asphalt_roofs = units * rate * 0.70.
Proof.
  pose (df := match collect_demographic_data "washington" with
              | Ok df => df
              | Raise _ => []
              end).
  assert (H : collect_demographic_data "washington" = Ok df)
    by (vm_compute; reflexivity).
  assert (Hi : (3 < nrows df)%nat) by (vm_compute; lia).
  destruct (proj1 (proj2 demographic_derived_fields) "washington" df 3%nat H Hi)
    as (units & rate & a & q & p & Hu & Hr & Ha & _ & _ & Hw & _).
  exists df, units, rate, a.
  split; [exact H|].
  split; [vm_compute; reflexivity|].
  split; [exact Hu|].
  split; [exact Hr|].
  split; [exact Ha|].
  exact (proj1 (Hw eq_refl)).
Defined.

(** Counterexample to C1 as written, at King County: the estimate for 953923
    housing units at a homeownership rate of 0.61 is 407325.121, which is
    199 away from the quoted 407125.7. *)
Lemma king_county_asphalt_roofs_not_407125_7 :
  exists df x,
    collect_demographic_data "washington" = Ok df /\
    cell_at df "county" 0 = Some (Str "King") /\
    cell_at df "housing_units" 0 = Some (Num (Fin 953923)) /\
    cell_at df "homeownership_rate" 0 = Some (Num (Fin 0.61)) /\
    cell_at df "est_asphalt_roofs" 0 = Some (Num (Fin x)) /\
    x == 407325.121 /\
    ~ Qabs (x - 407125.7) <= 0.05 /\
    199 < Qabs (x - 407125.7).
Proof.
  eexists. eexists.
  split; [vm_compute; reflexivity|].
  repeat split; try reflexivity.
  vm_compute. intros H. now apply H.
Qed.

(** C3, evaluated at a region that is neither of the two: the call does not
    return a frame and does not signal an invalid input; it raises
    [UnboundLocalError] for the local [df]. *)
Theorem collect_demographic_data_france :
  collect_demographic_data "france" = Raise (UnboundLocalError "df").
Proof. reflexivity. Qed.

Lemma collect_demographic_data_unknown (region : string) :
  region <> "washington" -> region <> "canada" ->
  collect_demographic_data region = Raise (UnboundLocalError "df").
Proof.
  intros Hw Hc. unfold collect_demographic_data.
  destruct (String.eqb_spec region "washington"); [contradiction|].
  destruct (String.eqb_spec region "canada"); [contradiction|].
  reflexivity.
Qed.

(** C10.  A region other than the exact text washington, france for one,
    gets the Canada table without an exception (percentages 7, 11, 14, 17,
    27, 19, 5 and average roof ages 3, 8, 13, 18, 26, 22, 27), and in the
    table returned for any region the treatment window flag of a row is true
    exactly when its age range is 6-10 years or 11-15 years. *)
Theorem collect_housing_age_data_regions :
  forall region,
    (region <> "washington" ->
     collect_housing_age_data region
     = Ok [ ("age_range",
             strs ["0-5 years"; "6-10 years"; "11-15 years"; "16-20 years";
                   "21-30 years"; "31-50 years"; "51+ years"]);
            ("percentage", nums [7; 11; 14; 17; 27; 19; 5]);
            ("avg_roof_age", nums [3; 8; 13; 18; 26; 22; 27]);
            ("in_treatment_window",
             [Flag false; Flag true; Flag true; Flag false;
              Flag false; Flag false; Flag false]) ]) /\
    exists df,
      collect_housing_age_data region = Ok df /\
      nrows df = 7%nat /\
      (forall i, (i < 7)%nat ->
         exists range flag,
           cell_at df "age_range" i = Some (Str range) /\
           cell_at df "in_treatment_window" i = Some (Flag flag) /\
           (flag = true <-> range = "6-10 years" \/ range = "11-15 years")).
Proof.
  intros region. unfold collect_housing_age_data.
  destruct (String.eqb_spec region "washington") as [->|Hne].
  - split; [intros H; now contradiction H|].
    eexists. split; [reflexivity|]. split; [reflexivity|].
    intros i Hi.
    do 7 (destruct i as [|i];
          [eexists; eexists; split; [reflexivity|]; split; [reflexivity|];
           split; [intros H; try discriminate H; auto
                  | intros [H|H]; try discriminate H; auto]
          |]).
    lia.
  - split; [intros _; reflexivity|].
    eexists. split; [reflexivity|]. split; [reflexivity|].
    intros i Hi.
    do 7 (destruct i as [|i];
          [eexists; eexists; split; [reflexivity|]; split; [reflexivity|];
           split; [intros H; try discriminate H; auto
                  | intros [H|H]; try discriminate H; auto]
          |]).
    lia.
Qed.

Lemma collect_housing_age_data_regions_witness :
  exists df,
    collect_housing_age_data "france" = Ok df /\
    lookup_col "percentage" df = Some (nums [7; 11; 14; 17; 27; 19; 5]) /\
    cell_at df "in_treatment_window" 1%nat = Some (Flag true).
Proof.
  eexists. split.
  - apply (proj1 (collect_housing_age_data_regions "france")). discriminate.
  - split; reflexivity.
Defined.

(** ** Section 4: customer lifetime value *)

(** C2.  Direct revenue is cost x treatments, referral value is cost x
    referral rate, the total is their sum and the timespan is treatments x 5;
    with the defaults 4500, 3 and 0.3 these are 13500, 1350, 14850 and 15. *)
Theorem calculate_customer_lifetime_value_spec :
  (forall c n r,
      direct_revenue (calculate_customer_lifetime_value c n r) = c * n /\
      referral_value (calculate_customer_lifetime_value c n r) = c * r /\
      total_clv (calculate_customer_lifetime_value c n r) = c * n + c * r /\
      timespan_years (calculate_customer_lifetime_value c n r) = n * 5) /\
  direct_revenue (calculate_customer_lifetime_value 4500 3 0.3) == 13500 /\
  referral_value (calculate_customer_lifetime_value 4500 3 0.3) == 1350 /\
  total_clv (calculate_customer_lifetime_value 4500 3 0.3) == 14850 /\
  timespan_years (calculate_customer_lifetime_value 4500 3 0.3) == 15.
Proof.
  split; [intros c n r; repeat split|].
  repeat split; reflexivity.
Qed.

(** ** Section 2: the predictive model *)

Lemma truediv_zero (x y : Q) : y == 0 -> truediv x y = Raise ZeroDivisionError.
Proof.
  intros H. unfold truediv.
  now rewrite (proj2 (Qeq_bool_iff y 0) H).
Qed.

Lemma truediv_nonzero (x y : Q) : ~ y == 0 -> truediv x y = Ok (x / y).
Proof.
  intros H. unfold truediv.
  destruct (Qeq_bool y 0) eqn:E; [|reflexivity].
  exfalso. apply H. now apply Qeq_bool_iff.
Qed.

Lemma projected_sales_share (ml : Q) :
  projected_sales (lead_breakdown ml) industry_conversion_rates == ml * 0.2775.
Proof.
  unfold projected_sales, lead_breakdown, industry_conversion_rates. simpl.
  ring.
Qed.

Lemma forecast_raises (base_data : DataFrame) (d s c r : Q) :
  d == 0 \/ monthly_leads d s c r == 0 \/
  projected_sales (lead_breakdown (monthly_leads d s c r))
    industry_conversion_rates == 0 ->
  forecast_lead_generation base_data d s c r = Raise ZeroDivisionError.
Proof.
  intros Hzero. unfold forecast_lead_generation.
  set (leads_total := monthly_leads d s c r) in *.
  set (sales := projected_sales _ _) in *.
  destruct (Qeq_dec leads_total 0) as [Hl|Hl].
  { now rewrite (truediv_zero _ _ Hl). }
  rewrite (truediv_nonzero _ _ Hl). simpl.
  destruct (Qeq_dec sales 0) as [Hs|Hs].
  { now rewrite (truediv_zero _ _ Hs). }
  rewrite (truediv_nonzero _ _ Hs). simpl.
  destruct Hzero as [Hd|[Hd|Hd]]; try contradiction.
  now rewrite (truediv_zero _ _ Hd).
Qed.

Lemma forecast_returns (base_data : DataFrame) (d s c r : Q) :
  let leads_total := monthly_leads d s c r in
  let sales :=
    projected_sales (lead_breakdown leads_total) industry_conversion_rates in
  ~ d == 0 -> ~ leads_total == 0 -> ~ sales == 0 ->
  forecast_lead_generation base_data d s c r
  = Ok {| leads := lead_breakdown leads_total;
          conversion_rates := industry_conversion_rates;
          projected_monthly_sales := sales;
          projected_monthly_revenue := sales * 4500;
          cost_per_lead := d / leads_total;
          cost_per_acquisition := d / sales;
          roi := (sales * 4500 - d) / d |}.
Proof.
  intros leads_total sales Hd Hl Hs. unfold forecast_lead_generation.
  fold leads_total. fold sales.
  rewrite (truediv_nonzero _ _ Hl). simpl.
  rewrite (truediv_nonzero _ _ Hs). simpl.
  rewrite (truediv_nonzero _ _ Hd). reflexivity.
Qed.

(** C4.  With a zero digital spend, a zero monthly lead count or a zero
    projected sales count the forecast raises [ZeroDivisionError] (the
    division by zero signal of Python); with the three nonzero it returns
    cost per lead = spend / leads, cost per acquisition = spend / sales and
    ROI = (sales x 4500 - spend) / spend. *)
Theorem forecast_lead_generation_division :
  forall base_data digital_spend seo_score content_pieces review_count,
    let leads_total :=
      monthly_leads digital_spend seo_score content_pieces review_count in
    let sales :=
      projected_sales (lead_breakdown leads_total) industry_conversion_rates in
    (digital_spend == 0 \/ leads_total == 0 \/ sales == 0 ->
     forecast_lead_generation base_data digital_spend seo_score content_pieces
       review_count = Raise ZeroDivisionError) /\
    (~ digital_spend == 0 -> ~ leads_total == 0 -> ~ sales == 0 ->
     exists forecast,
       forecast_lead_generation base_data digital_spend seo_score content_pieces
         review_count = Ok forecast /\
       total_leads (leads forecast) = leads_total /\
       projected_monthly_sales forecast = sales /\
       cost_per_lead forecast = digital_spend / leads_total /\
       cost_per_acquisition forecast = digital_spend / sales /\
       roi forecast = (sales * 4500 - digital_spend) / digital_spend).
Proof.
  intros base_data ds seo cp rc leads_total sales. split.
  - apply forecast_raises.
  - intros Hd Hl Hs. eexists.
    split; [apply forecast_returns; assumption|].
    repeat split.
Qed.

Lemma forecast_lead_generation_division_witness :
  forecast_lead_generation [] 0 50 20 40 = Raise ZeroDivisionError /\
  exists forecast,
    forecast_lead_generation [] 5000 50 20 40 = Ok forecast /\
    cost_per_lead forecast == 5000 / 288 /\
    roi forecast == 70.928.
Proof.
  split.
  - apply (proj1 (forecast_lead_generation_division [] 0 50 20 40)).
    left. reflexivity.
  - destruct (proj2 (forecast_lead_generation_division [] 5000 50 20 40))
      as (forecast & Hf & _ & _ & Hcpl & _ & Hroi);
      try (vm_compute; discriminate).
    exists forecast. split; [exact Hf|].
    rewrite Hcpl, Hroi. split; vm_compute; reflexivity.
Defined.

(** Division by a literal, as a product the linear solver understands. *)
Ltac literal_div :=
  unfold Qdiv in *;
  repeat match goal with
         | |- context [Qinv (Qmake ?n ?d)] =>
             let v := eval compute in (Qinv (Qmake n d)) in
             change (Qinv (Qmake n d)) with v in *
         end.

Lemma seo_multiplier_ge_1 (x : Q) : 0 <= x -> 1 <= seo_multiplier x.
Proof. unfold seo_multiplier. intros H. literal_div. lra. Qed.

Lemma content_multiplier_ge_1 (x : Q) : 0 <= x -> 1 <= content_multiplier x.
Proof. unfold content_multiplier. intros H. literal_div. lra. Qed.

Lemma review_multiplier_ge_1 (x : Q) : 0 <= x -> 1 <= review_multiplier x.
Proof. unfold review_multiplier. intros H. literal_div. lra. Qed.

Lemma seo_multiplier_mono (x y : Q) :
  x <= y -> seo_multiplier x <= seo_multiplier y.
Proof. unfold seo_multiplier. intros H. literal_div. lra. Qed.

Lemma content_multiplier_mono (x y : Q) :
  x <= y -> content_multiplier x <= content_multiplier y.
Proof. unfold content_multiplier. intros H. literal_div. lra. Qed.

Lemma review_multiplier_mono (x y : Q) :
  x <= y -> review_multiplier x <= review_multiplier y.
Proof. unfold review_multiplier. intros H. literal_div. lra. Qed.

Lemma base_leads_mono (x y : Q) :
  x <= y -> x / 1000 * base_leads_per_1k_spend <= y / 1000 * base_leads_per_1k_spend.
Proof. unfold base_leads_per_1k_spend. intros H. literal_div. lra. Qed.

Lemma base_leads_nonneg (x : Q) :
  0 <= x -> 0 <= x / 1000 * base_leads_per_1k_spend.
Proof. unfold base_leads_per_1k_spend. intros H. literal_div. lra. Qed.

(** The lead count is monotone in the four inputs taken together. *)
Lemma monthly_leads_mono (d s c r d' s' c' r' : Q) :
  0 <= d -> 0 <= s -> 0 <= c -> 0 <= r ->
  d <= d' -> s <= s' -> c <= c' -> r <= r' ->
  monthly_leads d s c r <= monthly_leads d' s' c' r'.
Proof.
  intros Hd Hs Hc Hr Hdd Hss Hcc Hrr. unfold monthly_leads.
  pose proof (base_leads_nonneg d Hd) as B0.
  pose proof (base_leads_mono d d' Hdd) as B1.
  pose proof (seo_multiplier_ge_1 s Hs) as S0.
  pose proof (seo_multiplier_mono s s' Hss) as S1.
  pose proof (content_multiplier_ge_1 c Hc) as C0.
  pose proof (content_multiplier_mono c c' Hcc) as C1.
  pose proof (review_multiplier_ge_1 r Hr) as R0.
  pose proof (review_multiplier_mono r r' Hrr) as R1.
  set (b := d / 1000 * base_leads_per_1k_spend) in *.
  set (b' := d' / 1000 * base_leads_per_1k_spend) in *.
  generalize dependent (seo_multiplier s). intros ms S0.
  generalize dependent (seo_multiplier s'). intros ms' S1.
  generalize dependent (content_multiplier c). intros mc C0.
  generalize dependent (content_multiplier c'). intros mc' C1.
  generalize dependent (review_multiplier r). intros mr R0.
  generalize dependent (review_multiplier r'). intros mr' R1.
  assert (H1 : b * ms <= b' * ms').
  { apply Qle_trans with (b * ms').
    - rewrite !(Qmult_comm b). apply Qmult_le_compat_r; assumption.
    - apply Qmult_le_compat_r; lra. }
  assert (P1 : 0 <= b * ms) by (apply Qmult_le_0_compat; lra).
  assert (H2 : b * ms * mc <= b' * ms' * mc').
  { apply Qle_trans with (b * ms * mc').
    - rewrite !(Qmult_comm (b * ms)). apply Qmult_le_compat_r; assumption.
    - apply Qmult_le_compat_r; lra. }
  assert (P2 : 0 <= b * ms * mc) by (apply Qmult_le_0_compat; lra).
  apply Qle_trans with (b * ms * mc * mr').
  - rewrite !(Qmult_comm (b * ms * mc)). apply Qmult_le_compat_r; assumption.
  - apply Qmult_le_compat_r; lra.
Qed.

Lemma monthly_leads_pos (d s c r : Q) :
  0 < d -> 0 <= s -> 0 <= c -> 0 <= r -> 0 < monthly_leads d s c r.
Proof.
  intros Hd Hs Hc Hr. unfold monthly_leads.
  pose proof (seo_multiplier_ge_1 s Hs) as S0.
  pose proof (content_multiplier_ge_1 c Hc) as C0.
  pose proof (review_multiplier_ge_1 r Hr) as R0.
  assert (B : 0 < d / 1000 * base_leads_per_1k_spend).
  { unfold base_leads_per_1k_spend. literal_div. lra. }
  do 3 (apply Qmult_lt_0_compat; [|lra]). exact B.
Qed.

Lemma forecast_positive_spend (base_data : DataFrame) (d s c r : Q) :
  0 < d -> 0 <= s -> 0 <= c -> 0 <= r ->
  exists f,
    forecast_lead_generation base_data d s c r = Ok f /\
    total_leads (leads f) = monthly_leads d s c r.
Proof.
  intros Hd Hs Hc Hr.
  pose proof (monthly_leads_pos d s c r Hd Hs Hc Hr) as Hl.
  pose proof (projected_sales_share (monthly_leads d s c r)) as Hshare.
  eexists. split.
  - apply forecast_returns; lra.
  - reflexivity.
Qed.

Lemma forecast_ok_spend (base_data : DataFrame) (d s c r : Q) (f : LeadForecast) :
  forecast_lead_generation base_data d s c r = Ok f -> ~ d == 0.
Proof.
  intros H Hd.
  rewrite (forecast_raises base_data d s c r (or_introl Hd)) in H.
  discriminate.
Qed.

(** C5.  For non-negative inputs the smaller of which has a forecast (the
    spend is then positive), raising the digital spend, the SEO score, the
    number of content pieces or the number of reviews alone gives a forecast
    whose monthly lead count is at least the former one; a positive spend
    with non-negative scores and counts always has a forecast, and the lead
    count expression itself is monotone also at a zero spend. *)
Theorem forecast_lead_generation_monotone :
  forall base_data d s c r x,
    0 <= d -> 0 <= s -> 0 <= c -> 0 <= r ->
    (0 < d -> exists f, forecast_lead_generation base_data d s c r = Ok f) /\
    (d <= x -> monthly_leads d s c r <= monthly_leads x s c r) /\
    (s <= x -> monthly_leads d s c r <= monthly_leads d x c r) /\
    (c <= x -> monthly_leads d s c r <= monthly_leads d s x r) /\
    (r <= x -> monthly_leads d s c r <= monthly_leads d s c x) /\
    (forall f,
        forecast_lead_generation base_data d s c r = Ok f ->
        (d <= x ->
         exists f', forecast_lead_generation base_data x s c r = Ok f' /\
                    total_leads (leads f) <= total_leads (leads f')) /\
        (s <= x ->
         exists f', forecast_lead_generation base_data d x c r = Ok f' /\
                    total_leads (leads f) <= total_leads (leads f')) /\
        (c <= x ->
         exists f', forecast_lead_generation base_data d s x r = Ok f' /\
                    total_leads (leads f) <= total_leads (leads f')) /\
        (r <= x ->
         exists f', forecast_lead_generation base_data d s c x = Ok f' /\
                    total_leads (leads f) <= total_leads (leads f'))).
Proof.
  intros base_data d s c r x Hd Hs Hc Hr.
  assert (Md : d <= x -> monthly_leads d s c r <= monthly_leads x s c r)
    by (intros; apply monthly_leads_mono; auto; apply Qle_refl).
  assert (Ms : s <= x -> monthly_leads d s c r <= monthly_leads d x c r)
    by (intros; apply monthly_leads_mono; auto; apply Qle_refl).
  assert (Mc : c <= x -> monthly_leads d s c r <= monthly_leads d s x r)
    by (intros; apply monthly_leads_mono; auto; apply Qle_refl).
  assert (Mr : r <= x -> monthly_leads d s c r <= monthly_leads d s c x)
    by (intros; apply monthly_leads_mono; auto; apply Qle_refl).
  split.
  { intros Hpos.
    destruct (forecast_positive_spend base_data d s c r) as (f & Hf & _); eauto. }
  do 4 (split; [assumption|]).
  intros f Hf.
  assert (Hpos : 0 < d).
  { pose proof (forecast_ok_spend _ _ _ _ _ _ Hf) as Hne.
    destruct (Qlt_le_dec 0 d) as [|Hle]; [assumption|].
    exfalso. apply Hne. lra. }
  destruct (forecast_positive_spend base_data d s c r) as (f0 & Hf0 & Hl0);
    auto.
  rewrite Hf in Hf0. inversion Hf0; subst f0. rewrite Hl0.
  repeat split; intros Hx.
  - destruct (forecast_positive_spend base_data x s c r) as (f' & Hf' & Hl');
      [lra | auto..|].
    exists f'. rewrite Hl'. auto.
  - destruct (forecast_positive_spend base_data d x c r) as (f' & Hf' & Hl');
      [lra..|].
    exists f'. rewrite Hl'. auto.
  - destruct (forecast_positive_spend base_data d s x r) as (f' & Hf' & Hl');
      [lra..|].
    exists f'. rewrite Hl'. auto.
  - destruct (forecast_positive_spend base_data d s c x) as (f' & Hf' & Hl');
      [lra..|].
    exists f'. rewrite Hl'. auto.
Qed.

Lemma forecast_lead_generation_monotone_witness :
  exists f f',
    forecast_lead_generation [] 5000 50 20 40 = Ok f /\
    forecast_lead_generation [] 5000 80 20 40 = Ok f' /\
    total_leads (leads f) <= total_leads (leads f').
Proof.
  assert (H0 : forall q : Q, (Qnum q >= 0)%Z -> 0 <= q).
  { intros [n p] H. unfold Qle. simpl in *. lia. }
  pose (f := match forecast_lead_generation [] 5000 50 20 40 with
             | Ok f => f
             | Raise _ =>
                 {| leads := lead_breakdown 0;
                    conversion_rates := industry_conversion_rates;
                    projected_monthly_sales := 0;
                    projected_monthly_revenue := 0;
                    cost_per_lead := 0;
                    cost_per_acquisition := 0;
                    roi := 0 |}
             end).
  assert (Hf : forecast_lead_generation [] 5000 50 20 40 = Ok f)
    by (vm_compute; reflexivity).
  destruct (forecast_lead_generation_monotone [] 5000 50 20 40 80)
    as (_ & _ & _ & _ & _ & Hmono);
    try (apply H0; simpl; lia).
  destruct (Hmono f Hf) as (_ & Hseo & _ & _).
  destruct Hseo as (f' & Hf' & Hle).
  { unfold Qle. simpl. lia. }
  exists f, f'. auto.
Defined.

(** C6, evaluated on the call without historical data: the twelve labels
    are the listed ones, but the twelve indices add up to 12.7 and not to 12;
    their mean is 12.7 / 12, about 1.058, and it is 0.7 / 12 away from 1. *)
Theorem seasonal_demand_forecast_default :
  lookup_col "month" (seasonal_demand_forecast None) = Some (strs months) /\
  lookup_col "seasonal_index" (seasonal_demand_forecast None)
  = Some (nums [0.4; 0.5; 0.9; 1.3; 1.6; 1.8; 1.7; 1.5; 1.2; 0.9; 0.5; 0.4]) /\
  lookup_col "demand_category" (seasonal_demand_forecast None)
  = Some (strs ["Low"; "Low"; "Medium"; "High"; "Peak"; "Peak";
                "Peak"; "High"; "High"; "Medium"; "Low"; "Low"]) /\
  length seasonal_index = 12%nat /\
  fold_left Qplus seasonal_index 0 == 12.7 /\
  Qabs (fold_left Qplus seasonal_index 0 - 12) == 0.7 /\
  ~ fold_left Qplus seasonal_index 0 / 12 == 1.
Proof.
  repeat split; try reflexivity.
  vm_compute. discriminate.
Qed.

Lemma ndiv_finite (a b : Q) : ~ b == 0 -> ndiv (Fin a) (Fin b) = Fin (a / b).
Proof.
  intros H. simpl.
  destruct (b ?= 0) eqn:E; try reflexivity.
  exfalso. apply H. now apply Qeq_alt.
Qed.

Lemma series_op_numeric (op : number -> number -> number) (xs ys : Series) :
  numeric_series xs = true -> numeric_series ys = true ->
  exists zs, series_op op xs ys = Ok zs.
Proof.
  revert ys. induction xs as [|x xs IH]; intros ys Hx Hy; [simpl; eauto|].
  destruct ys as [|y ys]; [simpl; eauto|].
  simpl in Hx, Hy.
  apply andb_true_iff in Hx as [Hx Hxs], Hy as [Hy Hys].
  destruct (IH ys Hxs Hys) as (zs & Hzs).
  simpl. rewrite Hzs.
  destruct x as [x|x|x], y as [y|y|y]; try discriminate; simpl; eauto.
Qed.

Lemma series_op_length (op : number -> number -> number) (xs ys zs : Series) :
  series_op op xs ys = Ok zs -> length zs = Nat.min (length xs) (length ys).
Proof.
  revert ys zs. induction xs as [|x xs IH]; intros ys zs H.
  - simpl in H. now inversion H.
  - destruct ys as [|y ys]; simpl in H; [now inversion H|].
    bind_inv H. bind_inv H. inversion H; subst zs. simpl.
    f_equal. eauto.
Qed.

Lemma series_op_quotient (xs ys zs : Series) :
  series_op ndiv xs ys = Ok zs -> quotient_of xs ys zs.
Proof.
  intros H. split; [eapply series_op_length; eauto|].
  intros i a b Ha Hb.
  destruct (series_op_nth _ _ _ _ H _ _ _ Ha Hb) as (c & Hc & Hn).
  unfold cell_op in Hc. bind_inv Hc. bind_inv Hc. inversion Hc; subst c.
  exists v, v0. repeat split; auto.
  intros p q -> -> Hq. now rewrite ndiv_finite in Hn.
Qed.

Lemma numeric_column_lookup (df : DataFrame) (name : string) (s : Series) :
  numeric_column df name = true -> lookup_col name df = Some s ->
  numeric_series s = true.
Proof. unfold numeric_column. intros H E. now rewrite E in H. Qed.

(** One of the two guarded assignments of [prepare_features]. *)
Lemma ratio_feature (df : DataFrame) (num den out : string) :
  numeric_column df num = true -> numeric_column df den = true ->
  exists features,
    (if has_col num df && has_col den df
     then
       let* a := getitem df num in
       let* b := getitem df den in
       let* ratio := series_op ndiv a b in
       Ok (setitem df out ratio)
     else Ok df) = Ok features /\
    (has_col num df = false \/ has_col den df = false -> features = df) /\
    (forall a b,
        lookup_col num df = Some a -> lookup_col den df = Some b ->
        exists ratio, features = setitem df out ratio /\ quotient_of a b ratio).
Proof.
  intros Hn Hd. unfold has_col, getitem.
  destruct (lookup_col num df) as [a|] eqn:Ea;
    destruct (lookup_col den df) as [b|] eqn:Eb; simpl.
  - destruct (series_op_numeric ndiv a b) as (ratio & Hr);
      eauto using numeric_column_lookup.
    rewrite Hr. simpl. eexists. split; [reflexivity|]. split.
    + intros [H|H]; discriminate H.
    + intros a' b' Ha' Hb'. inversion Ha'; inversion Hb'; subst.
      eauto using series_op_quotient.
  - eexists. split; [reflexivity|]. split; [reflexivity|]. discriminate.
  - eexists. split; [reflexivity|]. split; [reflexivity|]. discriminate.
  - eexists. split; [reflexivity|]. split; [reflexivity|]. discriminate.
Qed.

Lemma numeric_column_setitem_ne (df : DataFrame) (name other : string)
    (s : Series) :
  name <> other ->
  numeric_column (setitem df name s) other = numeric_column df other.
Proof.
  intros H. unfold numeric_column. now rewrite lookup_col_setitem_ne.
Qed.

(** C7.  On a frame whose four source columns, where present, hold numbers,
    [prepare_features] returns a frame.  Without a median_home_value column
    (or without median_income) no income_home_ratio is added: the column is
    as in the input, absent if it was absent.  With both columns
    income_home_ratio holds, row by row, income / home value.  The same holds
    for population, housing_units and population_density. *)
Theorem prepare_features_spec :
  forall df,
    numeric_column df "median_income" = true ->
    numeric_column df "median_home_value" = true ->
    numeric_column df "population" = true ->
    numeric_column df "housing_units" = true ->
    exists features,
      prepare_features df = Ok features /\
      (has_col "median_income" df = false \/
       has_col "median_home_value" df = false ->
       lookup_col "income_home_ratio" features
       = lookup_col "income_home_ratio" df) /\
      (forall income home,
          lookup_col "median_income" df = Some income ->
          lookup_col "median_home_value" df = Some home ->
          exists ratio,
            lookup_col "income_home_ratio" features = Some ratio /\
            quotient_of income home ratio) /\
      (has_col "population" df = false \/ has_col "housing_units" df = false ->
       lookup_col "population_density" features
       = lookup_col "population_density" df) /\
      (forall population units,
          lookup_col "population" df = Some population ->
          lookup_col "housing_units" df = Some units ->
          exists density,
            lookup_col "population_density" features = Some density /\
            quotient_of population units density).
Proof.
  intros df Hi Hh Hp Hu. unfold prepare_features. cbv zeta.
  destruct (ratio_feature df "median_income" "median_home_value"
              "income_home_ratio" Hi Hh) as (f1 & E1 & Hskip1 & Hadd1).
  rewrite E1. cbn [bind].
  assert (Hkeep : forall name, name <> "income_home_ratio" ->
                               lookup_col name f1 = lookup_col name df).
  { intros name Hne.
    destruct (lookup_col "median_income" df) as [a|] eqn:Ea;
      [destruct (lookup_col "median_home_value" df) as [b|] eqn:Eb|].
    - destruct (Hadd1 a b eq_refl eq_refl) as (ratio & -> & _).
      apply lookup_col_setitem_ne. congruence.
    - rewrite Hskip1; [reflexivity|]. right. unfold has_col. now rewrite Eb.
    - rewrite Hskip1; [reflexivity|]. left. unfold has_col. now rewrite Ea. }
  assert (Hp1 : numeric_column f1 "population" = true)
    by (unfold numeric_column in *; rewrite Hkeep by discriminate; exact Hp).
  assert (Hu1 : numeric_column f1 "housing_units" = true)
    by (unfold numeric_column in *; rewrite Hkeep by discriminate; exact Hu).
  destruct (ratio_feature f1 "population" "housing_units"
              "population_density" Hp1 Hu1) as (f2 & E2 & Hskip2 & Hadd2).
  rewrite E2. cbn [bind].
  exists f2. split; [reflexivity|].
  assert (Hratio : lookup_col "income_home_ratio" f2
                   = lookup_col "income_home_ratio" f1).
  { destruct (lookup_col "population" f1) as [a|] eqn:Ea;
      [destruct (lookup_col "housing_units" f1) as [b|] eqn:Eb|].
    - destruct (Hadd2 a b eq_refl eq_refl) as (density & -> & _).
      apply lookup_col_setitem_ne. discriminate.
    - rewrite Hskip2; [reflexivity|]. right. unfold has_col. now rewrite Eb.
    - rewrite Hskip2; [reflexivity|]. left. unfold has_col. now rewrite Ea. }
  split; [|split; [|split]].
  - intros Hnone. rewrite Hratio. now rewrite Hskip1 by exact Hnone.
  - intros income home Hin Hho.
    destruct (Hadd1 income home Hin Hho) as (ratio & -> & Hq).
    exists ratio. rewrite Hratio. now rewrite lookup_col_setitem_eq.
  - intros Hnone. rewrite Hskip2.
    + apply Hkeep. discriminate.
    + unfold has_col in *. rewrite !Hkeep by discriminate. exact Hnone.
  - intros population units Hpo Hun.
    rewrite <- (Hkeep "population") in Hpo by discriminate.
    rewrite <- (Hkeep "housing_units") in Hun by discriminate.
    destruct (Hadd2 population units Hpo Hun) as (density & -> & Hq).
    exists density. now rewrite lookup_col_setitem_eq.
Qed.

Lemma prepare_features_spec_witness :
  exists features density,
    prepare_features canada_demographics = Ok features /\
    lookup_col "income_home_ratio" features = None /\
    lookup_col "population_density" features = Some density /\
    nth_error density 0 = Some (Num (Fin (14826276 / 5929000))).
Proof.
  destruct (prepare_features_spec canada_demographics)
    as (features & Hf & Hskip & _ & _ & Hadd); try reflexivity.
  destruct (Hadd _ _ eq_refl eq_refl) as (density & Hd & _ & Hq).
  destruct (Hq 0%nat _ _ eq_refl eq_refl) as (x & y & Hx & Hy & _ & Hfin).
  exists features, density.
  split; [exact Hf|].
  split; [rewrite (Hskip (or_intror eq_refl)); reflexivity|].
  split; [exact Hd|].
  inversion Hx; inversion Hy; subst.
  apply Hfin; try reflexivity. vm_compute. discriminate.
Defined.

(** ** Section 3: the geospatial analyzer *)

Lemma wa_coordinates_keys (name : string) :
  is_Some (wa_coordinates !! name) <-> In name wa_counties.
Proof.
  unfold wa_coordinates.
  match goal with
  | |- is_Some (list_to_map ?l !! _) <-> _ => set (table := l)
  end.
  assert (Hkeys : table.*1 = wa_counties) by reflexivity.
  rewrite <- list_elem_of_In, <- Hkeys.
  rewrite <- not_eq_None_Some.
  rewrite <- (not_elem_of_list_to_map (M := gmap string) table name).
  split.
  - intros H. destruct (decide (name ∈ table.*1)); [assumption|].
    contradiction.
  - intros H H'. contradiction.
Qed.

Lemma named_in_table (row : Row) :
  named_in wa_counties row
  = match location_name row with
    | Some name => fst <$> coordinates_of name
    | None => None
    end.
Proof.
  unfold named_in, coordinates_of.
  destruct (location_name row) as [[x|name|b]|]; try reflexivity.
  destruct (existsb (String.eqb name) wa_counties) eqn:E.
  - apply existsb_exists in E as (k & Hk & Ek).
    apply String.eqb_eq in Ek. subst k.
    apply wa_coordinates_keys in Hk as [coords Hc]. now rewrite Hc.
  - destruct (wa_coordinates !! name) as [coords|] eqn:Hc; [|reflexivity].
    assert (Hin : In name wa_counties)
      by (apply wa_coordinates_keys; rewrite Hc; eauto).
    assert (existsb (String.eqb name) wa_counties = true).
    { apply existsb_exists. exists name. split; [assumption|].
      apply String.eqb_refl. }
    congruence.
Qed.

Lemma format_f0_number (c : cell) :
  (match c with Str _ => false | _ => true end) = true ->
  exists x, format_f0 c = Ok x /\ as_number c = Ok x.
Proof. destruct c; simpl; intros H; try discriminate; eauto. Qed.

Lemma heatmap_step_spec (metric : string) (m : FoliumMap) (row : Row) :
  (forall name, named_in wa_counties row = Some name ->
                renderable metric row = true) ->
  exists m',
    heatmap_step metric m row = Ok m' /\
    center m' = center m /\ zoom_start m' = zoom_start m /\
    tiles m' = tiles m /\
    match named_in wa_counties row with
    | None => children m' = children m
    | Some name =>
        exists marker,
          children m' = (children m ++ [marker])%list /\
          heading (popup marker) = name /\
          wa_coordinates !! name = Some (location marker) /\
          as_number (row_get row metric (Num (Fin 0)))
          = Ok (shown_metric (popup marker)) /\
          radius marker = ndiv (shown_metric (popup marker)) (Fin 100)
    end.
Proof.
  intros Hrender. rewrite named_in_table in *. unfold heatmap_step.
  destruct (location_name row) as [name|]; [|eauto 6].
  unfold coordinates_of in *.
  destruct name as [x|name|b]; simpl in *; try (eauto 6; fail).
  destruct (wa_coordinates !! name) as [coords|] eqn:Hc; simpl in *;
    [|eauto 6].
  specialize (Hrender _ eq_refl). unfold renderable in Hrender. simpl in Hrender.
  apply andb_true_iff in Hrender as [H1 Hrender].
  apply andb_true_iff in Hrender as [H2 Hrender].
  apply andb_true_iff in Hrender as [H3 Hrender].
  apply andb_true_iff in Hrender as [H4 _].
  destruct (format_f0_number _ H1) as (x1 & F1 & N1).
  destruct (format_f0_number _ H2) as (x2 & F2 & _).
  destruct (format_f0_number _ H3) as (x3 & F3 & _).
  destruct (format_f0_number _ H4) as (x4 & F4 & _).
  rewrite F1. cbn [bind]. rewrite F2. cbn [bind]. rewrite F3. cbn [bind].
  rewrite F4. cbn [bind]. rewrite N1. cbn [bind].
  eexists. split; [reflexivity|]. simpl.
  repeat split. eexists. split; [reflexivity|]. simpl. auto.
Qed.

Lemma heatmap_loop_spec (metric : string) (rows : list Row) :
  forall m,
    (forall row name,
        In row rows -> named_in wa_counties row = Some name ->
        renderable metric row = true) ->
    exists m',
      heatmap_loop metric m rows = Ok m' /\
      center m' = center m /\ zoom_start m' = zoom_start m /\
      tiles m' = tiles m /\
      exists markers,
        children m' = (children m ++ markers)%list /\
        map (fun marker => heading (popup marker)) markers
        = omap (named_in wa_counties) rows /\
        Forall (fun marker =>
                  wa_coordinates !! heading (popup marker)
                  = Some (location marker)) markers.
Proof.
  induction rows as [|row rows IH]; intros m Hrender; simpl.
  - exists m. repeat split. exists []. rewrite app_nil_r. auto.
  - destruct (heatmap_step_spec metric m row) as (m1 & E1 & C1 & Z1 & T1 & K1).
    { intros name. apply Hrender. now left. }
    rewrite E1. cbn [bind].
    destruct (IH m1) as (m' & E' & C' & Z' & T' & markers & K' & Hn & Hl).
    { intros r name Hr. apply Hrender. now right. }
    exists m'. split; [exact E'|].
    split; [congruence|]. split; [congruence|]. split; [congruence|].
    destruct (named_in wa_counties row) as [name|].
    + destruct K1 as (marker & Kc & Kh & Kl & _).
      exists (marker :: markers). split; [|split].
      * rewrite K', Kc, <- app_assoc. reflexivity.
      * simpl. now rewrite Kh, Hn.
      * constructor; [now rewrite Kh | assumption].
    + exists markers. rewrite K', K1. auto.
Qed.

Lemma heatmap_render (self : GeospatialAnalyzer) (df : DataFrame)
    (metric : string) :
  (forall row name,
      In row (iterrows df) -> named_in wa_counties row = Some name ->
      renderable metric row = true) ->
  exists m,
    create_market_heatmap self df metric
    = Ok (m, {| maps := <[ "opportunity_heatmap" := m ]> (maps self) |}) /\
    map (fun marker => heading (popup marker)) (children m)
    = omap (named_in wa_counties) (iterrows df) /\
    Forall (fun marker =>
              wa_coordinates !! heading (popup marker)
              = Some (location marker)) (children m).
Proof.
  intros Hrender. unfold create_market_heatmap.
  match goal with
  | |- context [heatmap_loop metric ?m0 _] =>
      destruct (heatmap_loop_spec metric (iterrows df) m0 Hrender)
        as (m & E & _ & _ & _ & markers & K & Hn & Hl)
  end.
  rewrite E. cbn [bind]. simpl in K. subst markers.
  exists m. auto.
Qed.

(** C8.  The names with an entry in the coordinate table are the ten
    Washington counties.  On a frame whose rows named in the table show
    numbers, the render returns a map (also stored as opportunity_heatmap)
    whose markers are, in row order, one for each row whose county (else
    province) name is in the table, at the coordinates of the table; a row
    with another name, whatever its other cells hold, adds nothing and does
    not fail the render.  The Canadian frame gets no marker. *)
Theorem create_market_heatmap_markers :
  (forall name, is_Some (wa_coordinates !! name) <-> In name wa_counties) /\
  (forall self demographic_data metric,
      (forall row name,
          In row (iterrows demographic_data) ->
          named_in wa_counties row = Some name ->
          renderable metric row = true) ->
      exists m,
        create_market_heatmap self demographic_data metric
        = Ok (m, {| maps := <[ "opportunity_heatmap" := m ]> (maps self) |}) /\
        map (fun marker => heading (popup marker)) (children m)
        = omap (named_in wa_counties) (iterrows demographic_data) /\
        Forall (fun marker =>
                  wa_coordinates !! heading (popup marker)
                  = Some (location marker)) (children m)) /\
  (forall self metric,
      exists canada m,
        collect_demographic_data "canada" = Ok canada /\
        create_market_heatmap self canada metric
        = Ok (m, {| maps := <[ "opportunity_heatmap" := m ]> (maps self) |}) /\
        children m = []).
Proof.
  split; [exact wa_coordinates_keys|].
  split; [exact heatmap_render|].
  intros self metric.
  destruct (collect_demographic_data "canada") as [canada|e] eqn:Ec;
    [|vm_compute in Ec; discriminate].
  assert (Hnone : omap (named_in wa_counties) (iterrows canada) = []).
  { vm_compute in Ec. inversion Ec; subst canada. vm_compute. reflexivity. }
  destruct (heatmap_render self canada metric) as (m & E & Hn & _).
  { intros row name Hin Hname. exfalso.
    assert (Hmem : In name (omap (named_in wa_counties) (iterrows canada))).
    { apply list_elem_of_In, list_elem_of_omap. exists row.
      split; [now apply list_elem_of_In | assumption]. }
    rewrite Hnone in Hmem. exact Hmem. }
  exists canada, m. split; [reflexivity|]. split; [exact E|].
  rewrite Hnone in Hn. destruct (children m); [reflexivity | discriminate].
Qed.

Lemma create_market_heatmap_markers_witness :
  exists washington m,
    collect_demographic_data "washington" = Ok washington /\
    create_market_heatmap {| maps := ∅ |} washington "market_potential_annual"
    = Ok (m, {| maps := {[ "opportunity_heatmap" := m ]} |}) /\
    map (fun marker => heading (popup marker)) (children m) = wa_counties.
Proof.
  pose (washington := match collect_demographic_data "washington" with
                      | Ok df => df
                      | Raise _ => []
                      end).
  assert (Hw : collect_demographic_data "washington" = Ok washington)
    by (vm_compute; reflexivity).
  destruct (proj1 (proj2 create_market_heatmap_markers) {| maps := ∅ |}
              washington "market_potential_annual") as (m & E & Hn & _).
  { intros row name Hin _.
    vm_compute in Hin.
    repeat (destruct Hin as [<-|Hin]; [vm_compute; reflexivity|]).
    contradiction. }
  exists washington, m. split; [exact Hw|]. split; [exact E|].
  rewrite Hn. vm_compute. reflexivity.
Defined.

(** ** Section 5: the dashboard *)

(** The sidebar elements do follow the session. *)
Lemma sidebar_follows_session :
  In (["sidebar"],
      Selectbox "Select Territory" territories "Canada - Ontario")
     (render {| now := 20000;
                widgets := {[ "Select Territory" := Selected 4 ]} |}) /\
  In (["sidebar"], NumberInput "Monthly Marketing Budget ($)" 12500)
     (render {| now := 20000;
                widgets := {[ "Monthly Marketing Budget ($)" := Amount 12500 ]} |}).
Proof. split; vm_compute; tauto. Qed.

(** C9.  Whatever the session holds for the territory, the date range and
    the marketing budget (and whatever the date of the run), the metrics
    drawn in the Executive Dashboard tab are the same four: Monthly Leads
    187, Conversion Rate 28.5%, Revenue (MTD) $241,500 and Pipeline Value
    $1.2M, with their deltas. *)
Theorem executive_metrics_static :
  forall session session' : Session,
    metrics_of_tab "tab1" (render session)
    = metrics_of_tab "tab1" (render session') /\
    metrics_of_tab "tab1" (render session)
    = [ ("Monthly Leads", "187", "+23 vs last month");
        ("Conversion Rate", "28.5%", "+3.2%");
        ("Revenue (MTD)", "$241,500", "+$45,300");
        ("Pipeline Value", "$1.2M", "+18%") ].
Proof.
  assert (H : forall session,
             metrics_of_tab "tab1" (render session)
             = [ ("Monthly Leads", "187", "+23 vs last month");
                 ("Conversion Rate", "28.5%", "+3.2%");
                 ("Revenue (MTD)", "$241,500", "+$45,300");
                 ("Pipeline Value", "$1.2M", "+18%") ]).
  { intros [today state]. unfold render, dashboard.
    unfold app_bind, within, draw, selectbox, date_input, number_input,
      datetime_now.
    cbn [now widgets fst snd].
    destruct (state !! "Select Territory") as [[i|a b|n]|];
      destruct (state !! "Analysis Period") as [[i'|a' b'|n']|];
      destruct (state !! "Monthly Marketing Budget ($)") as [[i''|a'' b''|n'']|];
      reflexivity. }
  intros session session'. rewrite (H session), (H session'). auto.
Qed.

(** ** Binary64 *)

(** In binary64 too the King County estimate is 407325.12..., the default
    referral value is 1350, the default total is 14850 and the seasonal
    indices add up to 12.7 within 0.01. *)
Lemma binary64_figures :
  Binary64.king_county_estimate = true /\
  Binary64.default_referral_value = true /\
  Binary64.default_total_clv = true /\
  Binary64.seasonal_sum_estimate = true.
Proof. repeat split; vm_compute; reflexivity. Qed.

(** * Further properties *)

(** ** The collector, continued *)

Lemma washington_rows_rates (i : nat) :
  (i < 10)%nat ->
  exists units rate,
    cell_at washington_demographics "housing_units" i = Some (Num (Fin units)) /\
    cell_at washington_demographics "homeownership_rate" i
    = Some (Num (Fin rate)) /\
    0 < units /\ 0 < rate /\ rate <= 1.
Proof.
  intros Hi.
  do 10 (destruct i as [|i];
         [eexists; eexists; split; [reflexivity|]; split; [reflexivity|];
          repeat split; vm_compute; congruence|]).
  lia.
Qed.

Lemma canada_rows_rates (i : nat) :
  (i < 6)%nat ->
  exists units rate,
    cell_at canada_demographics "housing_units" i = Some (Num (Fin units)) /\
    cell_at canada_demographics "homeownership_rate" i = Some (Num (Fin rate)) /\
    0 < units /\ 0 < rate /\ rate <= 1.
Proof.
  intros Hi.
  do 6 (destruct i as [|i];
        [eexists; eexists; split; [reflexivity|]; split; [reflexivity|];
         repeat split; vm_compute; congruence|]).
  lia.
Qed.

(** The three fractions of a branch narrow the count step by step. *)
Lemma narrowing (units rate a q r : Q) :
  0 < units -> 0 < rate -> rate <= 1 ->
  0 < a -> a <= 1 -> 0 < q -> q <= 1 -> 0 < r -> r <= 1 ->
  0 < units * rate * a * q * r /\
  units * rate * a * q * r <= units * rate * a * q /\
  units * rate * a * q <= units * rate * a /\
  units * rate * a <= units.
Proof.
  intros Hu Hr Hr1 Ha Ha1 Hq Hq1 Hp Hp1.
  assert (P1 : 0 < units * rate) by (apply Qmult_lt_0_compat; assumption).
  assert (P2 : 0 < units * rate * a) by (apply Qmult_lt_0_compat; assumption).
  assert (P3 : 0 < units * rate * a * q)
    by (apply Qmult_lt_0_compat; assumption).
  assert (P4 : 0 < units * rate * a * q * r)
    by (apply Qmult_lt_0_compat; assumption).
  assert (L : forall x y, 0 < x -> y <= 1 -> x * y <= x).
  { intros x y Hx Hy. rewrite <- (Qmult_1_r x) at 2.
    rewrite !(Qmult_comm x). apply Qmult_le_compat_r; lra. }
  repeat split; auto.
  apply Qle_trans with (units * rate); auto.
Qed.

(** X1.  In every row either region returns, the market potential is positive
    and the counts narrow: potential <= qualified roofs <= asphalt roofs <=
    housing units. *)
Theorem demographic_counts_narrow :
  forall region df i,
    collect_demographic_data region = Ok df -> (i < nrows df)%nat ->
    exists units asphalt_roofs qualified_roofs potential,
      cell_at df "housing_units" i = Some (Num (Fin units)) /\
      cell_at df "est_asphalt_roofs" i = Some (Num (Fin asphalt_roofs)) /\
      cell_at df "est_qualified_roofs" i = Some (Num (Fin qualified_roofs)) /\
      cell_at df "market_potential_annual" i = Some (Num (Fin potential)) /\
      0 < potential /\ potential <= qualified_roofs /\
      qualified_roofs <= asphalt_roofs /\ asphalt_roofs <= units.
Proof.
  intros region df i H Hi.
  destruct (collect_demographic_data_ok _ _ H) as [[-> Hm]|[-> Hm]].
  - rewrite (washington_frame_rows _ Hm) in Hi.
    destruct (washington_rows_rates _ Hi) as (units & rate & Hu & Hr & B).
    destruct (addressable_market_cells _ _ _ _ _ Hm _ _ _ Hu Hr)
      as (Ha & Hq & Hp).
    exists units. do 3 eexists.
    unfold cell_at at 1.
    rewrite (addressable_market_keeps _ _ _ _ _ _ Hm) by discriminate.
    split; [exact Hu|]. split; [exact Ha|]. split; [exact Hq|].
    split; [exact Hp|].
    destruct B as (B1 & B2 & B3). apply narrowing; auto; reflexivity || (vm_compute; congruence).
  - rewrite (canada_frame_rows _ Hm) in Hi.
    destruct (canada_rows_rates _ Hi) as (units & rate & Hu & Hr & B).
    destruct (addressable_market_cells _ _ _ _ _ Hm _ _ _ Hu Hr)
      as (Ha & Hq & Hp).
    exists units. do 3 eexists.
    unfold cell_at at 1.
    rewrite (addressable_market_keeps _ _ _ _ _ _ Hm) by discriminate.
    split; [exact Hu|]. split; [exact Ha|]. split; [exact Hq|].
    split; [exact Hp|].
    destruct B as (B1 & B2 & B3). apply narrowing; auto; reflexivity || (vm_compute; congruence).
Qed.

Lemma demographic_counts_narrow_witness :
  exists df units potential,
    collect_demographic_data "canada" = Ok df /\
    cell_at df "housing_units" 2 = Some (Num (Fin units)) /\
    cell_at df "market_potential_annual" 2 = Some (Num (Fin potential)) /\
    0 < potential /\ potential <= units.
Proof.
  pose (df := match collect_demographic_data "canada" with
              | Ok df => df
              | Raise _ => []
              end).
  assert (H : collect_demographic_data "canada" = Ok df)
    by (vm_compute; reflexivity).
  assert (Hi : (2 < nrows df)%nat) by (vm_compute; lia).
  destruct (demographic_counts_narrow "canada" df 2%nat H Hi)
    as (units & a & q & p & Hu & _ & _ & Hp & P0 & P1 & P2 & P3).
  exists df, units, p.
  split; [exact H|]. split; [exact Hu|]. split; [exact Hp|].
  split; [exact P0|].
  apply Qle_trans with q; [exact P1|].
  apply Qle_trans with a; [exact P2 | exact P3].
Defined.

(** X2.  For every region argument the seven housing age percentages add up to
    100; the rows in the treatment window hold 27 of them for washington and
    25 for any other region. *)
Theorem housing_age_percentages_total :
  forall region,
    exists df percentage window,
      collect_housing_age_data region = Ok df /\
      lookup_col "percentage" df = Some (nums percentage) /\
      lookup_col "in_treatment_window" df = Some (map Flag window) /\
      fold_left Qplus percentage 0 == 100 /\
      fold_left Qplus
        (map fst (List.filter snd (combine percentage window))) 0
      == (if String.eqb region "washington" then 27 else 25).
Proof.
  intros region. unfold collect_housing_age_data.
  destruct (String.eqb region "washington").
  - exists
      [ ("age_range", strs age_ranges);
        ("percentage", nums [8; 12; 15; 18; 25; 18; 4]);
        ("avg_roof_age", nums [3; 8; 13; 18; 25; 20; 25]);
        ("in_treatment_window",
         map Flag [false; true; true; false; false; false; false]) ],
      [8; 12; 15; 18; 25; 18; 4],
      [false; true; true; false; false; false; false].
    repeat split; reflexivity.
  - exists
      [ ("age_range", strs age_ranges);
        ("percentage", nums [7; 11; 14; 17; 27; 19; 5]);
        ("avg_roof_age", nums [3; 8; 13; 18; 26; 22; 27]);
        ("in_treatment_window",
         map Flag [false; true; true; false; false; false; false]) ],
      [7; 11; 14; 17; 27; 19; 5],
      [false; true; true; false; false; false; false].
    repeat split; reflexivity.
Qed.

Lemma lookup_col_map_keys {A : Type} (f : string -> A) (keys : list string)
    (key : string) :
  In key keys -> lookup_col key (map (fun k => (k, f k)) keys) = Some (f key).
Proof.
  induction keys as [|k keys IH]; intros Hin; [contradiction|].
  simpl. destruct (String.eqb_spec k key) as [->|Hne]; [reflexivity|].
  destruct Hin as [Heq|Hin]; [contradiction|]. auto.
Qed.

Section RandomnessFacts.

Variable G : Type.
Variable uniform : Q -> Q -> G -> Q * G.
Variable randint : Z -> Z -> G -> Z * G.

Hypothesis uniform_range :
  forall low high g,
    low < high -> low <= fst (uniform low high g) /\ fst (uniform low high g) < high.
Hypothesis randint_range :
  forall low high g,
    (low < high)%Z -> (low <= fst (randint low high g) < high)%Z.

Lemma weather_record_row (lat lon : Q) (name : string) (g : G) :
  weather_row (lat, lon, name) (fst (weather_record G uniform randint lat lon name g)).
Proof using uniform_range randint_range.
  unfold weather_record, weather_row.
  pose proof (uniform_range 30 50 g eq_refl) as U1.
  destruct (uniform 30 50 g) as [precip g1].
  pose proof (randint_range 20 80 g1 eq_refl) as R1.
  destruct (randint 20 80 g1) as [cycles g2].
  pose proof (uniform_range 75 85 g2 eq_refl) as U2.
  destruct (uniform 75 85 g2) as [summer g3].
  pose proof (uniform_range 25 40 g3 eq_refl) as U3.
  destruct (uniform 25 40 g3) as [winter g4].
  pose proof (randint_range 5 30 g4 eq_refl) as R2.
  destruct (randint 5 30 g4) as [snow g5].
  pose proof (randint_range 2 15 g5 eq_refl) as R3.
  destruct (randint 2 15 g5) as [severe g6].
  simpl in *. exists precip, cycles, summer, winter, snow, severe. auto 10.
Qed.

Lemma weather_records_rows (locations : list (Q * Q * string)) (g : G) :
  Forall2 weather_row locations
    (fst (weather_records G uniform randint locations g)).
Proof using uniform_range randint_range.
  revert g. induction locations as [|[[lat lon] name] rest IH]; intros g.
  - constructor.
  - simpl.
    pose proof (weather_record_row lat lon name g) as Hrow.
    destruct (weather_record G uniform randint lat lon name g) as [data g1].
    specialize (IH g1).
    destruct (weather_records G uniform randint rest g1) as [records g2].
    simpl in *. constructor; assumption.
Qed.

Lemma weather_rows_keys (locations : list (Q * Q * string)) (rows : list Row) :
  Forall2 weather_row locations rows ->
  forall seen,
    (seen = weather_keys \/ (seen = [] /\ rows <> [])) ->
    fold_left add_keys rows seen = weather_keys.
Proof using Type.
  induction 1 as [|location row locations rows Hrow _ IH]; intros seen Hseen.
  - destruct Hseen as [->|[_ Hne]]; [reflexivity | contradiction].
  - destruct Hrow as (p & c & s & w & sn & sv & -> & _).
    simpl. apply IH. left.
    destruct Hseen as [->|[-> _]]; reflexivity.
Qed.

Lemma weather_rows_column (locations : list (Q * Q * string)) (rows : list Row)
    (key : string) (i : nat) (location : Q * Q * string) :
  Forall2 weather_row locations rows ->
  nth_error locations i = Some location ->
  exists row, nth_error rows i = Some row /\ weather_row location row.
Proof using Type.
  intros H. revert i. induction H as [|l r ls rs Hr _ IH]; intros i Hi.
  - destruct i; discriminate.
  - destruct i as [|i]; simpl in *.
    + inversion Hi; subst. eauto.
    + auto.
Qed.

End RandomnessFacts.

(** X3.  Whatever the generator, provided its draws lie in the half-open
    ranges numpy promises: an empty list of locations gives a frame without
    any column, and a non-empty list gives the nine columns with one row per
    location, in order, each row holding the name and the coordinates of its
    location and draws within precipitation [30,50), freeze-thaw cycles
    [20,80), summer high [75,85), winter low [25,40), snow days [5,30) and
    severe events [2,15). *)
Theorem collect_weather_data_rows :
  forall (G : Type) (uniform : Q -> Q -> G -> Q * G)
         (randint : Z -> Z -> G -> Z * G)
         (locations : list (Q * Q * string)) (g : G),
    (forall low high g,
        low < high ->
        low <= fst (uniform low high g) /\ fst (uniform low high g) < high) ->
    (forall low high g,
        (low < high)%Z -> (low <= fst (randint low high g) < high)%Z) ->
    (locations = [] ->
     collect_weather_data G uniform randint locations g = ([], g)) /\
    (locations <> [] ->
     map fst (fst (collect_weather_data G uniform randint locations g))
     = weather_keys /\
     nrows (fst (collect_weather_data G uniform randint locations g))
     = length locations /\
     forall i location,
       nth_error locations i = Some location ->
       exists row,
         weather_row location row /\
         forall key,
           In key weather_keys ->
           cell_at (fst (collect_weather_data G uniform randint locations g))
             key i = lookup_col key row).
Proof.
  intros G uniform randint locations g Hu Hr. split.
  - intros ->. reflexivity.
  - intros Hne. unfold collect_weather_data.
    pose proof (weather_records_rows G uniform randint Hu Hr locations g)
      as Hrows.
    destruct (weather_records G uniform randint locations g) as [rows g'].
    simpl in *.
    assert (Hrows_ne : rows <> []).
    { intros ->. inversion Hrows. congruence. }
    assert (Hkeys : record_keys rows = weather_keys).
    { unfold record_keys. eapply weather_rows_keys; eauto. }
    unfold frame_of_records. rewrite Hkeys.
    split; [reflexivity|]. split.
    + simpl. rewrite length_map. symmetry.
      eapply Forall2_length; eauto.
    + intros i location Hi.
      destruct (weather_rows_column _ _ "location" _ _ Hrows Hi)
        as (row & Hrow & Hok).
      exists row. split; [exact Hok|].
      intros key Hkey. unfold cell_at.
      match goal with
      | |- match ?col with Some _ => _ | None => _ end = _ =>
          replace col
            with (Some (map (fun row => row_get row key (Num NaN)) rows))
            by (symmetry;
                exact (lookup_col_map_keys
                         (fun key =>
                            map (fun row => row_get row key (Num NaN)) rows)
                         weather_keys key Hkey))
      end.
      rewrite nth_error_map, Hrow. simpl.
      destruct Hok as (p & c & s & w & sn & sv & -> & _).
      unfold row_get.
      simpl in Hkey.
      repeat (destruct Hkey as [<-|Hkey]; [reflexivity|]).
      contradiction.
Qed.

Lemma collect_weather_data_rows_witness :
  exists df precip,
    fst (collect_weather_data nat (fun low _ g => (low, S g))
           (fun low _ g => (low, S g)) [(47.6, -122.3, "Seattle")] O) = df /\
    cell_at df "location" 0 = Some (Str "Seattle") /\
    cell_at df "avg_annual_precip_inches" 0 = Some (Num (Fin precip)) /\
    30 <= precip /\ precip < 50.
Proof.
  destruct (collect_weather_data_rows nat (fun low _ g => (low, S g))
              (fun low _ g => (low, S g)) [(47.6, -122.3, "Seattle")] O)
    as (_ & Hrows).
  { intros low high g H. simpl. split; [apply Qle_refl | exact H]. }
  { intros low high g H. simpl. lia. }
  destruct Hrows as (_ & _ & Hrow); [discriminate|].
  destruct (Hrow O _ eq_refl)
    as (row & (p & c & s & w & sn & sv & -> & (P1 & P2) & _) & Hcells).
  eexists. exists p. split; [reflexivity|].
  split; [rewrite Hcells; [reflexivity | simpl; tauto]|].
  split; [rewrite Hcells; [reflexivity | simpl; tauto]|].
  split; assumption.
Defined.

(** ** The predictive model, continued *)

Lemma setitem_same (df : DataFrame) (name : string) (s : Series) :
  lookup_col name df = Some s -> setitem df name s = df.
Proof.
  induction df as [|[c v] rest IH]; simpl; [discriminate|].
  destruct (String.eqb c name); intros H.
  - now inversion H.
  - now rewrite IH.
Qed.

Lemma setitem_labels (df : DataFrame) (name : string) (s : Series) :
  map fst (setitem df name s)
  = if has_col name df then map fst df else (map fst df ++ [name])%list.
Proof.
  unfold has_col. induction df as [|[c v] rest IH]; simpl; [reflexivity|].
  destruct (String.eqb c name); simpl; [reflexivity|].
  rewrite IH. now destruct (lookup_col name rest).
Qed.



(** What one guarded assignment of [prepare_features] can do. *)
Lemma ratio_feature_cases (df features : DataFrame) (num den out : string) :
  (if has_col num df && has_col den df
   then
     let* a := getitem df num in
     let* b := getitem df den in
     let* ratio := series_op ndiv a b in
     Ok (setitem df out ratio)
   else Ok df) = Ok features ->
  (features = df /\ (has_col num df = false \/ has_col den df = false))
  \/ (exists a b ratio,
         lookup_col num df = Some a /\ lookup_col den df = Some b /\
         series_op ndiv a b = Ok ratio /\ features = setitem df out ratio).
Proof.
  unfold has_col, getitem.
  destruct (lookup_col num df) as [a|] eqn:Ea;
    destruct (lookup_col den df) as [b|] eqn:Eb; simpl; intros H;
    try (inversion H; subst; left; split; [reflexivity | tauto]).
  destruct (series_op ndiv a b) as [ratio|e] eqn:Er; simpl in H;
    [|discriminate].
  inversion H; subst. right. eauto 8.
Qed.

Lemma prepare_features_steps (df features : DataFrame) :
  prepare_features df = Ok features ->
  exists middle,
    ((middle = df /\ (has_col "median_income" df = false
                      \/ has_col "median_home_value" df = false))
     \/ (exists a b ratio,
            lookup_col "median_income" df = Some a /\
            lookup_col "median_home_value" df = Some b /\
            series_op ndiv a b = Ok ratio /\
            middle = setitem df "income_home_ratio" ratio)) /\
    ((features = middle /\ (has_col "population" middle = false
                            \/ has_col "housing_units" middle = false))
     \/ (exists a b density,
            lookup_col "population" middle = Some a /\
            lookup_col "housing_units" middle = Some b /\
            series_op ndiv a b = Ok density /\
            features = setitem middle "population_density" density)).
Proof.
  unfold prepare_features. cbv zeta. intros H.
  apply bind_ok in H. destruct H as (middle & E1 & H).
  apply bind_ok in H. destruct H as (last & E2 & H).
  inversion H; subst last.
  exists middle. split.
  - exact (ratio_feature_cases _ _ _ _ _ E1).
  - exact (ratio_feature_cases _ _ _ _ _ E2).
Qed.

Lemma prepare_features_lookup (df features : DataFrame) (name : string) :
  prepare_features df = Ok features ->
  name <> "income_home_ratio" -> name <> "population_density" ->
  lookup_col name features = lookup_col name df.
Proof.
  intros H N1 N2.
  destruct (prepare_features_steps _ _ H) as (middle & H1 & H2).
  transitivity (lookup_col name middle).
  - destruct H2 as [[-> _]|(a & b & r & _ & _ & _ & ->)]; [reflexivity|].
    apply lookup_col_setitem_ne. congruence.
  - destruct H1 as [[-> _]|(a & b & r & _ & _ & _ & ->)]; [reflexivity|].
    apply lookup_col_setitem_ne. congruence.
Qed.

(** X4.  Whenever [prepare_features] returns, every column of the input other
    than income_home_ratio and population_density is in the output with the
    same cells, and the labels of the output are those of the input, in the
    same order, followed by the derived labels that were not there. *)
Theorem prepare_features_keeps_columns :
  forall df features,
    prepare_features df = Ok features ->
    (forall name,
        name <> "income_home_ratio" -> name <> "population_density" ->
        lookup_col name features = lookup_col name df) /\
    exists added,
      map fst features = (map fst df ++ added)%list /\
      forall name,
        In name added ->
        (name = "income_home_ratio" \/ name = "population_density") /\
        has_col name df = false.
Proof.
  intros df features H.
  destruct (prepare_features_steps _ _ H) as (middle & H1 & H2).
  assert (M1 : forall name, name <> "income_home_ratio" ->
                            lookup_col name middle = lookup_col name df).
  { intros name Hn. destruct H1 as [[-> _]|(a & b & r & _ & _ & _ & ->)].
    - reflexivity.
    - apply lookup_col_setitem_ne. congruence. }
  assert (M2 : forall name, name <> "population_density" ->
                            lookup_col name features = lookup_col name middle).
  { intros name Hn. destruct H2 as [[-> _]|(a & b & r & _ & _ & _ & ->)].
    - reflexivity.
    - apply lookup_col_setitem_ne. congruence. }
  split.
  { intros name N1 N2. rewrite M2, M1; auto. }
  assert (L1 : exists added1,
             map fst middle = (map fst df ++ added1)%list /\
             forall name, In name added1 ->
                          name = "income_home_ratio" /\ has_col name df = false).
  { destruct H1 as [[-> _]|(a & b & r & _ & _ & _ & ->)].
    - exists []. rewrite app_nil_r. split; [reflexivity | contradiction].
    - rewrite setitem_labels.
      destruct (has_col "income_home_ratio" df) eqn:E.
      + exists []. rewrite app_nil_r. split; [reflexivity | contradiction].
      + exists ["income_home_ratio"]. split; [reflexivity|].
        intros name [<-|[]]. auto. }
  assert (L2 : exists added2,
             map fst features = (map fst middle ++ added2)%list /\
             forall name, In name added2 ->
                          name = "population_density" /\
                          has_col name middle = false).
  { destruct H2 as [[-> _]|(a & b & r & _ & _ & _ & ->)].
    - exists []. rewrite app_nil_r. split; [reflexivity | contradiction].
    - rewrite setitem_labels.
      destruct (has_col "population_density" middle) eqn:E.
      + exists []. rewrite app_nil_r. split; [reflexivity | contradiction].
      + exists ["population_density"]. split; [reflexivity|].
        intros name [<-|[]]. auto. }
  destruct L1 as (added1 & E1 & A1), L2 as (added2 & E2 & A2).
  exists (added1 ++ added2)%list. split.
  - rewrite E2, E1, app_assoc. reflexivity.
  - intros name Hin. apply in_app_or in Hin as [Hin|Hin].
    + destruct (A1 _ Hin). auto.
    + destruct (A2 _ Hin) as [-> Hno]. split; [auto|].
      unfold has_col in *. rewrite M1 in Hno by discriminate. exact Hno.
Qed.

Lemma prepare_features_keeps_columns_witness :
  exists features,
    prepare_features canada_demographics = Ok features /\
    lookup_col "province" features = lookup_col "province" canada_demographics /\
    map fst features
    = (map fst canada_demographics ++ ["population_density"])%list.
Proof.
  pose (features := match prepare_features canada_demographics with
                    | Ok f => f
                    | Raise _ => []
                    end).
  assert (H : prepare_features canada_demographics = Ok features)
    by (vm_compute; reflexivity).
  destruct (prepare_features_keeps_columns _ _ H) as (Hkeep & _).
  exists features. split; [exact H|]. split.
  - apply Hkeep; discriminate.
  - vm_compute. reflexivity.
Defined.

(** X5.  Preparing an already prepared frame changes nothing.
 *)
Theorem prepare_features_idempotent :
  forall df features,
    prepare_features df = Ok features ->
    prepare_features features = Ok features.
Proof.
  intros df features H.
  assert (Hkeep : forall name,
             name <> "income_home_ratio" -> name <> "population_density" ->
             lookup_col name features = lookup_col name df)
    by (intros name; apply prepare_features_lookup; exact H).
  destruct (prepare_features_steps _ _ H) as (middle & H1 & H2).
  assert (M1 : forall name, name <> "income_home_ratio" ->
                            lookup_col name middle = lookup_col name df).
  { intros name Hn. destruct H1 as [[-> _]|(a & b & r & _ & _ & _ & ->)].
    - reflexivity.
    - apply lookup_col_setitem_ne. congruence. }
  assert (M2 : forall name, name <> "population_density" ->
                            lookup_col name features = lookup_col name middle).
  { intros name Hn. destruct H2 as [[-> _]|(a & b & r & _ & _ & _ & ->)].
    - reflexivity.
    - apply lookup_col_setitem_ne. congruence. }
  unfold prepare_features. cbv zeta. unfold has_col, getitem.
  rewrite !Hkeep by discriminate.
  assert (S1 :
            (if match lookup_col "median_income" df with
                | Some _ => true | None => false end
                && match lookup_col "median_home_value" df with
                   | Some _ => true | None => false end
             then
               let* a := match lookup_col "median_income" df with
                         | Some s => Ok s
                         | None => Raise (KeyError "median_income")
                         end in
               let* b := match lookup_col "median_home_value" df with
                         | Some s => Ok s
                         | None => Raise (KeyError "median_home_value")
                         end in
               let* ratio := series_op ndiv a b in
               Ok (setitem features "income_home_ratio" ratio)
             else Ok features) = Ok features).
  { destruct H1 as [[_ Hno]|(a & b & r & Ea & Eb & Er & Hm)].
    - unfold has_col in Hno.
      destruct (lookup_col "median_income" df);
        destruct (lookup_col "median_home_value" df); simpl;
        try reflexivity.
      destruct Hno; discriminate.
    - rewrite Ea, Eb. simpl. rewrite Er. simpl.
      rewrite setitem_same; [reflexivity|].
      rewrite M2 by discriminate. subst middle.
      apply lookup_col_setitem_eq. }
  rewrite S1. cbn [bind]. rewrite !Hkeep by discriminate.
  destruct H2 as [[Hf Hno]|(a & b & r & Ea & Eb & Er & Hf)].
  - unfold has_col in Hno. rewrite !M1 in Hno by discriminate.
    destruct (lookup_col "population" df);
      destruct (lookup_col "housing_units" df); simpl; try reflexivity.
    destruct Hno; discriminate.
  - rewrite M1 in Ea, Eb by discriminate.
    rewrite Ea, Eb. simpl. rewrite Er. simpl.
    rewrite setitem_same; [reflexivity|].
    subst features. apply lookup_col_setitem_eq.
Qed.

Lemma prepare_features_idempotent_witness :
  exists features,
    prepare_features washington_demographics = Ok features /\
    prepare_features features = Ok features.
Proof.
  pose (features := match prepare_features washington_demographics with
                    | Ok f => f
                    | Raise _ => []
                    end).
  assert (H : prepare_features washington_demographics = Ok features)
    by (vm_compute; reflexivity).
  exists features. split; [exact H|].
  exact (prepare_features_idempotent _ _ H).
Defined.
















Lemma select_columns_missing (df : DataFrame) (cols : list string) :
  (exists c, In c cols /\ has_col c df = false) ->
  exists key,
    In key cols /\ has_col key df = false /\
    select_columns df cols = Raise (KeyError key).
Proof.
  induction cols as [|c cols IH]; intros (m & Hin & Hm); [contradiction|].
  simpl. unfold getitem, has_col in *.
  destruct (lookup_col c df) as [s|] eqn:Ec.
  - destruct Hin as [->|Hin]; [rewrite Ec in Hm; discriminate|].
    destruct IH as (key & Hk & Hno & E); [eauto|].
    exists key. rewrite E. simpl. auto.
  - exists c. rewrite Ec. simpl. auto.
Qed.

(** X11.  Whatever the regressor and the sample: when the demographic frame
    lacks one of the five feature columns (population, median_income,
    median_home_value, homeownership_rate, market_potential_annual) and
    feature preparation succeeds, the call raises [KeyError] for such a
    column, before anything is fitted. The Canadian frame of the collector,
    whose income and home value columns carry the suffix _cad, is such a
    frame. *)
Theorem predict_market_penetration_missing_feature :
  forall (Model : Type) fit predict feature_importances uniform_sample
         (self : RoofMaxxPredictiveModel Model) demographic_data
         marketing_spend months_in_market,
    (exists X, prepare_features demographic_data = Ok X) ->
    (exists c, In c feature_cols /\ has_col c demographic_data = false) ->
    exists key,
      In key feature_cols /\ has_col key demographic_data = false /\
      predict_market_penetration Model fit predict feature_importances
        uniform_sample self demographic_data marketing_spend months_in_market
      = Raise (KeyError key).
Proof.
  intros Model fit predict fi sample self df spend months (X & HX)
         (c & Hc & Hno).
  assert (Hsame : forall name, In name feature_cols ->
                               has_col name X = has_col name df).
  { intros name Hin. unfold has_col.
    rewrite (prepare_features_lookup df X name HX); [reflexivity| |];
      intros ->; simpl in Hin; repeat (destruct Hin as [Hin|Hin];
                                       [discriminate Hin|]); exact Hin. }
  destruct (select_columns_missing X feature_cols) as (key & Hk & Hkno & E).
  { exists c. split; [exact Hc|]. now rewrite Hsame. }
  exists key. split; [exact Hk|]. split; [now rewrite <- Hsame|].
  unfold predict_market_penetration. rewrite HX. cbn [bind].
  rewrite E. reflexivity.
Qed.

Lemma predict_market_penetration_missing_feature_witness :
  exists canada key,
    collect_demographic_data "canada" = Ok canada /\
    predict_market_penetration unit (fun _ _ => Ok tt) (fun _ _ => [])
      (fun _ => []) (fun _ _ _ => []) {| models := ∅ |} canada 5000 12
    = Raise (KeyError key).
Proof.
  pose (canada := match collect_demographic_data "canada" with
                  | Ok df => df
                  | Raise _ => []
                  end).
  assert (H : collect_demographic_data "canada" = Ok canada)
    by (vm_compute; reflexivity).
  destruct (predict_market_penetration_missing_feature unit (fun _ _ => Ok tt)
              (fun _ _ => []) (fun _ => []) (fun _ _ _ => [])
              {| models := ∅ |} canada 5000 12)
    as (key & _ & _ & E).
  { eexists. vm_compute. reflexivity. }
  { exists "median_income". split; [simpl; tauto | reflexivity]. }
  exists canada, key. split; [exact H | exact E].
Defined.

Lemma assign_array_ok (df df' : DataFrame) (name : string) (values : list Q) :
  assign_array df name values = Ok df' ->
  length values = nrows df /\ df' = setitem df name (nums values).
Proof.
  unfold assign_array.
  destruct (Nat.eqb_spec (length values) (nrows df)); intros H;
    [|discriminate].
  now inversion H.
Qed.

(** X12.  Whenever the penetration model returns: the result keeps the columns
    of the prepared frame, its three new columns have one cell per row, the
    predicted revenue of a row is its predicted annual sales x 4500 and its
    market share is sales / market potential x 100, and the fitted model is
    stored under the key penetration without touching the other entries of the
    registry. *)
Theorem predict_market_penetration_results :
  forall (Model : Type) fit predict feature_importances uniform_sample
         (self self' : RoofMaxxPredictiveModel Model) demographic_data
         marketing_spend months_in_market results feature_importance,
    predict_market_penetration Model fit predict feature_importances
      uniform_sample self demographic_data marketing_spend months_in_market
    = Ok (results, feature_importance, self') ->
    exists X predictions potential share,
      prepare_features demographic_data = Ok X /\
      length predictions = nrows X /\
      lookup_col "market_potential_annual" X = Some potential /\
      (forall name,
          name <> "predicted_annual_sales" -> name <> "predicted_revenue" ->
          name <> "market_share_percentage" ->
          lookup_col name results = lookup_col name X) /\
      lookup_col "predicted_annual_sales" results = Some (nums predictions) /\
      lookup_col "predicted_revenue" results
      = Some (nums (map (fun p => p * 4500) predictions)) /\
      lookup_col "market_share_percentage" results = Some share /\
      (forall i p x,
          nth_error predictions i = Some p ->
          nth_error potential i = Some (Num x) ->
          nth_error share i
          = Some (Num (nmul (ndiv (Fin p) x) (Fin 100)))) /\
      (exists model, models Model self' !! "penetration" = Some model) /\
      (forall key, key <> "penetration" ->
                   models Model self' !! key = models Model self !! key).
Proof.
  intros Model fit predict fi sample self self' df spend months results
         importance H.
  unfold predict_market_penetration in H.
  repeat (apply bind_ok in H; destruct H as (? & ? & H)).
  inversion H; subst; clear H.
  repeat match goal with
         | E : assign_array _ _ _ = Ok _ |- _ =>
             apply assign_array_ok in E; destruct E as (? & ?)
         end.
  subst.
  do 4 eexists.
  split; [eassumption|]. split; [eassumption|].
  split; [eapply getitem_ok; eassumption|].
  split; [intros name N1 N2 N3;
          rewrite !lookup_col_setitem_ne by congruence; reflexivity|].
  split; [rewrite !lookup_col_setitem_ne by discriminate;
          apply lookup_col_setitem_eq|].
  split; [rewrite lookup_col_setitem_ne by discriminate;
          apply lookup_col_setitem_eq|].
  split; [apply lookup_col_setitem_eq|].
  split.
  - intros i pred pot Hp Hx.
    match goal with
    | E1 : series_op ndiv (nums ?ps) _ = Ok ?q,
      E2 : series_op_scalar nmul ?q 100 = Ok _ |- _ =>
        assert (Hn : nth_error (nums ps) i = Some (Num (Fin pred)))
          by (unfold nums; rewrite nth_error_map, Hp; reflexivity);
        destruct (series_op_nth _ _ _ _ E1 _ _ _ Hn Hx) as (c1 & Hc1 & Hq);
        simpl in Hc1; inversion Hc1; subst c1;
        destruct (series_op_scalar_nth _ _ _ _ E2 _ _ Hq) as (c2 & Hc2 & Hs);
        simpl in Hc2; inversion Hc2; subst c2; exact Hs
    end.
  - split.
    + eexists. simpl. apply lookup_insert_eq.
    + intros key Hkey. simpl. apply lookup_insert_ne. congruence.
Qed.

Lemma predict_market_penetration_results_witness :
  exists washington results feature_importance self' sales,
    collect_demographic_data "washington" = Ok washington /\
    predict_market_penetration unit (fun _ _ => Ok tt)
      (fun _ X => repeat 100 (nrows X)) (fun _ => repeat 0.125 8)
      (fun _ _ n => repeat 1 n) {| models := ∅ |} washington 5000 12
    = Ok (results, feature_importance, self') /\
    cell_at results "predicted_annual_sales" 0 = Some (Num (Fin sales)) /\
    cell_at results "predicted_revenue" 0 = Some (Num (Fin (sales * 4500))) /\
    models unit self' !! "penetration" = Some tt.
Proof.
  pose (washington := match collect_demographic_data "washington" with
                      | Ok df => df
                      | Raise _ => []
                      end).
  assert (Hw : collect_demographic_data "washington" = Ok washington)
    by (vm_compute; reflexivity).
  assert (Hout :
            exists results feature_importance self',
              predict_market_penetration unit (fun _ _ => Ok tt)
                (fun _ X => repeat 100 (nrows X)) (fun _ => repeat 0.125 8)
                (fun _ _ n => repeat 1 n) {| models := ∅ |} washington 5000 12
              = Ok (results, feature_importance, self')).
  { vm_compute. do 3 eexists. reflexivity. }
  destruct Hout as (results & importance & self' & E).
  destruct (predict_market_penetration_results _ _ _ _ _ _ _ _ _ _ _ _ E)
    as (X & predictions & potential & share & HX & Hlen & _ & _ & Hsales
        & Hrevenue & _ & _ & (model & Hmodel) & _).
  assert (Hrows : nrows X = 10%nat).
  { vm_compute in HX. inversion HX. reflexivity. }
  rewrite Hrows in Hlen.
  destruct predictions as [|sales rest]; [discriminate Hlen|].
  exists washington, results, importance, self', sales.
  split; [exact Hw|]. split; [exact E|].
  unfold cell_at. rewrite Hsales, Hrevenue.
  split; [reflexivity|]. split; [reflexivity|].
  destruct model. exact Hmodel.
Defined.

(** ** The geospatial analyzer, continued *)

Lemma row_at_lookup_none (df : DataFrame) (i : nat) (name : string) :
  lookup_col name df = None -> lookup_col name (row_at df i) = None.
Proof.
  unfold row_at. induction df as [|[c s] rest IH]; simpl; [reflexivity|].
  destruct (String.eqb c name) eqn:E; [discriminate|]. intros H.
  destruct (nth_error s i); simpl; [rewrite E|]; auto.
Qed.

Lemma iterrows_lookup_none (df : DataFrame) (name : string) (row : Row) :
  lookup_col name df = None -> In row (iterrows df) ->
  lookup_col name row = None.
Proof.
  unfold iterrows. intros H Hin.
  apply in_map_iff in Hin as (i & <- & _).
  now apply row_at_lookup_none.
Qed.

(** X13.  A frame with neither a county nor a province column, whatever its
    cells, renders without an error and gets no marker. *)
Theorem create_market_heatmap_unnamed_frame :
  forall self (demographic_data : DataFrame) metric,
    has_col "county" demographic_data = false ->
    has_col "province" demographic_data = false ->
    exists m,
      create_market_heatmap self demographic_data metric
      = Ok (m, {| maps := <[ "opportunity_heatmap" := m ]> (maps self) |}) /\
      children m = [].
Proof.
  intros self df metric Hc Hp.
  assert (Hnone : forall row, In row (iterrows df) ->
                              named_in wa_counties row = None).
  { intros row Hin. unfold named_in, location_name, has_col in *.
    rewrite (iterrows_lookup_none df "county" row),
      (iterrows_lookup_none df "province" row); auto.
    - now destruct (lookup_col "province" df).
    - now destruct (lookup_col "county" df). }
  destruct (heatmap_render self df metric) as (m & E & Hn & _).
  { intros row name Hin Hname. rewrite (Hnone row Hin) in Hname.
    discriminate. }
  exists m. split; [exact E|].
  assert (Hempty : omap (named_in wa_counties) (iterrows df) = []).
  { clear E Hn. revert Hnone. generalize (iterrows df).
    induction l as [|row rows IH]; intros Hnone; [reflexivity|].
    simpl. rewrite (Hnone row) by (now left).
    apply IH. intros r Hr. apply Hnone. now right. }
  rewrite Hempty in Hn. destruct (children m); [reflexivity | discriminate].
Qed.

Lemma create_market_heatmap_unnamed_frame_witness :
  exists m,
    create_market_heatmap {| maps := ∅ |} (collect_competitor_data "washington")
      "avg_replacement_cost"
    = Ok (m, {| maps := {[ "opportunity_heatmap" := m ]} |}) /\
    children m = [].
Proof.
  destruct (create_market_heatmap_unnamed_frame {| maps := ∅ |}
              (collect_competitor_data "washington") "avg_replacement_cost")
    as (m & E & Hm); try reflexivity.
  exists m. split; [exact E | exact Hm].
Defined.

Lemma heatmap_loop_rows (metric : string) (rows : list Row) :
  forall m,
    (forall row name,
        In row rows -> named_in wa_counties row = Some name ->
        renderable metric row = true) ->
    exists m' markers,
      heatmap_loop metric m rows = Ok m' /\
      children m' = (children m ++ markers)%list /\
      Forall2 (marker_from metric) (named_rows rows) markers.
Proof.
  induction rows as [|row rows IH]; intros m Hrender; simpl.
  - exists m, []. rewrite app_nil_r. repeat split. constructor.
  - destruct (heatmap_step_spec metric m row) as (m1 & E1 & _ & _ & _ & K1).
    { intros name. apply Hrender. now left. }
    rewrite E1. cbn [bind].
    destruct (IH m1) as (m' & markers & E' & K' & Hall).
    { intros r name Hr. apply Hrender. now right. }
    exists m'. unfold named_rows in *. simpl.
    destruct (named_in wa_counties row) as [name|] eqn:Hname.
    + destruct K1 as (marker & Kc & Kh & Kl & Kn & Kr).
      exists (marker :: markers). split; [exact E'|]. split.
      * rewrite K', Kc, <- app_assoc. reflexivity.
      * constructor; [|exact Hall].
        unfold marker_from. rewrite Hname, Kh. auto.
    + exists markers. split; [exact E'|]. split; [|exact Hall].
      now rewrite K', K1.
Qed.

(** X14.  When the rows named in the table show numbers, the markers of the
    map correspond one to one, in order, to those rows: each marker is at the
    coordinates of its row's name, shows the row's metric in its popup and has
    that metric divided by 100 as radius; when the frame has no column of the
    metric's name, every radius is 0 / 100. *)
Theorem create_market_heatmap_radius :
  forall self (demographic_data : DataFrame) metric,
    (forall row name,
        In row (iterrows demographic_data) ->
        named_in wa_counties row = Some name ->
        renderable metric row = true) ->
    exists m,
      create_market_heatmap self demographic_data metric
      = Ok (m, {| maps := <[ "opportunity_heatmap" := m ]> (maps self) |}) /\
      Forall2 (marker_from metric) (named_rows (iterrows demographic_data))
        (children m) /\
      (has_col metric demographic_data = false ->
       Forall (fun marker => radius marker = Fin (0 / 100)) (children m)).
Proof.
  intros self df metric Hrender. unfold create_market_heatmap.
  match goal with
  | |- context [heatmap_loop metric ?m0 _] =>
      destruct (heatmap_loop_rows metric (iterrows df) m0 Hrender)
        as (m & markers & E & K & Hall)
  end.
  rewrite E. cbn [bind]. simpl in K. subst markers.
  exists m. split; [reflexivity|]. split; [exact Hall|].
  intros Hno.
  assert (Hrows : forall row, In row (named_rows (iterrows df)) ->
                              row_get row metric (Num (Fin 0)) = Num (Fin 0)).
  { intros row Hin. unfold named_rows in Hin.
    apply filter_In in Hin as [Hin _].
    unfold row_get, has_col in *.
    rewrite (iterrows_lookup_none df metric row); auto.
    now destruct (lookup_col metric df). }
  clear E. induction Hall as [|row marker rows markers Hm _ IH];
    constructor.
  - destruct Hm as (_ & _ & Hn & Hr).
    rewrite Hrows in Hn by (now left).
    simpl in Hn. inversion Hn as [Hshown]. rewrite Hr, <- Hshown.
    reflexivity.
  - apply IH. intros r Hr. apply Hrows. now right.
Qed.

Lemma create_market_heatmap_radius_witness :
  exists washington m marker,
    collect_demographic_data "washington" = Ok washington /\
    create_market_heatmap {| maps := ∅ |} washington "no_such_metric"
    = Ok (m, {| maps := {[ "opportunity_heatmap" := m ]} |}) /\
    nth_error (children m) 0 = Some marker /\
    radius marker = Fin (0 / 100).
Proof.
  pose (washington := match collect_demographic_data "washington" with
                      | Ok df => df
                      | Raise _ => []
                      end).
  assert (Hw : collect_demographic_data "washington" = Ok washington)
    by (vm_compute; reflexivity).
  destruct (create_market_heatmap_radius {| maps := ∅ |} washington
              "no_such_metric") as (m & E & Hall & Hzero).
  { intros row name Hin _. vm_compute in Hin.
    repeat (destruct Hin as [<-|Hin]; [vm_compute; reflexivity|]).
    contradiction. }
  specialize (Hzero eq_refl).
  assert (Hlen : length (children m) = 10%nat).
  { rewrite <- (Forall2_length _ _ _ Hall). vm_compute. reflexivity. }
  destruct (children m) as [|marker rest] eqn:Hc; [discriminate Hlen|].
  exists washington, m, marker.
  split; [exact Hw|]. split; [exact E|]. rewrite Hc.
  split; [reflexivity|].
  now inversion Hzero.
Defined.

Lemma heatmap_step_raises (metric : string) (m : FoliumMap) (row : Row) :
  (exists m', heatmap_step metric m row = Ok m')
  \/ (heatmap_step metric m row = Raise ValueError
      /\ named_in wa_counties row <> None
      /\ renderable metric row = false).
Proof.
  rewrite named_in_table. unfold heatmap_step, renderable.
  destruct (location_name row) as [name|]; [|eauto].
  destruct (coordinates_of name) as [[title coords]|]; [|eauto].
  simpl.
  destruct (row_get row metric (Num (Fin 0))) as [x1|t1|b1];
    simpl; try (right; repeat split; congruence);
    (destruct (row_get row "population" (Num (Fin 0))) as [x2|t2|b2];
     simpl; try (right; repeat split; congruence);
     (destruct (row_get row "median_income" (Num (Fin 0))) as [x3|t3|b3];
      simpl; try (right; repeat split; congruence);
      (destruct (row_get row "est_qualified_roofs" (Num (Fin 0)))
         as [x4|t4|b4];
       simpl; try (right; repeat split; congruence); eauto))).
Qed.

Lemma heatmap_step_text (metric : string) (m : FoliumMap) (row : Row) :
  named_in wa_counties row <> None -> renderable metric row = false ->
  heatmap_step metric m row = Raise ValueError.
Proof.
  intros Hname Htext. rewrite named_in_table in Hname.
  unfold heatmap_step, renderable in *.
  destruct (location_name row) as [name|]; [|contradiction].
  destruct (coordinates_of name) as [[title coords]|]; [|contradiction].
  simpl in *.
  destruct (row_get row metric (Num (Fin 0)));
    destruct (row_get row "population" (Num (Fin 0)));
    destruct (row_get row "median_income" (Num (Fin 0)));
    destruct (row_get row "est_qualified_roofs" (Num (Fin 0)));
    simpl in *; congruence.
Qed.

(** X15.  One row that is named in the table and shows a text where a number
    is formatted fails the whole render with [ValueError]: no map is returned,
    whatever the other rows hold. *)
Theorem create_market_heatmap_text_cell :
  forall self (demographic_data : DataFrame) metric row,
    In row (iterrows demographic_data) ->
    named_in wa_counties row <> None ->
    renderable metric row = false ->
    create_market_heatmap self demographic_data metric = Raise ValueError.
Proof.
  intros self df metric bad Hin Hname Htext. unfold create_market_heatmap.
  match goal with
  | |- context [heatmap_loop metric ?m0 _] => generalize m0
  end.
  induction (iterrows df) as [|row rows IH]; intros m; [contradiction|].
  simpl.
  destruct Hin as [->|Hin].
  - now rewrite (heatmap_step_text metric m bad Hname Htext).
  - destruct (heatmap_step_raises metric m row) as [(m' & E)|(E & _)];
      rewrite E; cbn [bind]; [|reflexivity].
    specialize (IH Hin m').
    destruct (heatmap_loop metric m' rows); simpl in *; congruence.
Qed.

Lemma create_market_heatmap_text_cell_witness :
  create_market_heatmap {| maps := ∅ |}
    [ ("county", strs ["Adams"; "King"]);
      ("market_potential_annual", [Num (Fin 120); Str "unknown"]) ]
    "market_potential_annual"
  = Raise ValueError.
Proof.
  apply (create_market_heatmap_text_cell _ _ _
           [ ("county", Str "King");
             ("market_potential_annual", Str "unknown") ]).
  - vm_compute. tauto.
  - vm_compute. discriminate.
  - reflexivity.
Defined.









(** X17.  With no dealer and no competitor the mean of nothing is NaN, folium
    refuses it as a location, and the analysis raises [ValueError]. *)
Theorem competitor_proximity_analysis_empty :
  competitor_proximity_analysis [] [] = Raise ValueError.
Proof. reflexivity. Qed.


(** ** The dashboard, continued *)

(** X19.  Apart from its three input widgets a run draws the same elements in
    the same containers for every session, and the three widgets are all drawn
    in the sidebar. *)
Theorem dashboard_static_part :
  forall session session' : Session,
    static_part (render session) = static_part (render session') /\
    map fst (render session) = map fst (render session') /\
    Forall (fun '(path, e) => is_widget e = true -> path = ["sidebar"])
           (render session) /\
    length (List.filter (fun '(_, e) => is_widget e) (render session)) = 3%nat.
Proof.
  assert (H : forall session,
             exists territory dates budget,
               render session
               = [ ([], Title "Roof Maxx Market Analytics Dashboard");
                   ([], Markdown
                          "### Real-time Sales Intelligence & Predictive Analytics");
                   (["sidebar"], Header "Territory Settings");
                   (["sidebar"],
                    Selectbox "Select Territory" territories territory);
                   (["sidebar"], DateInput "Analysis Period" dates);
                   (["sidebar"], Header "Marketing Investment");
                   (["sidebar"],
                    NumberInput "Monthly Marketing Budget ($)" budget);
                   ([], Tabs ["Executive Dashboard"; "Lead Generation";
                              "Territory Analysis"; "Predictive Forecasts";
                              "Customer Insights"]);
                   (["tab1"], Columns 4);
                   (["tab1"; "col1"],
                    Metric "Monthly Leads" "187" "+23 vs last month");
                   (["tab1"; "col2"], Metric "Conversion Rate" "28.5%" "+3.2%");
                   (["tab1"; "col3"],
                    Metric "Revenue (MTD)" "$241,500" "+$45,300");
                   (["tab1"; "col4"], Metric "Pipeline Value" "$1.2M" "+18%");
                   (["tab1"], Markdown "---") ]).
  { intros [today state]. unfold render, dashboard.
    unfold app_bind, within, draw, selectbox, date_input, number_input,
      datetime_now.
    cbn [now widgets fst snd].
    destruct (state !! "Select Territory") as [[i|a b|n]|];
      destruct (state !! "Analysis Period") as [[i'|a' b'|n']|];
      destruct (state !! "Monthly Marketing Budget ($)") as [[i''|a'' b''|n'']|];
      do 3 eexists; reflexivity. }
  intros session session'.
  destruct (H session) as (t & d & b & ->).
  destruct (H session') as (t' & d' & b' & ->).
  split; [reflexivity|]. split; [reflexivity|]. split; [|reflexivity].
  repeat constructor; simpl; congruence.
Qed.
